(** * pdf-picker: a shallow embedding of [src/pdf_picker/picker.py]

    The program is glue around four external collaborators: a file search
    tool, an interactive selector, the PyMuPDF library and a PDF viewer.
    The embedding keeps the program's own control flow and data handling
    as Rocq functions and takes the collaborators as parameters of a
    section:

    - spawning a process is an oracle from the history of the run, the
      argument vector and the text fed on standard input to either the
      captured standard output or "executable not found";
    - opening a document is a partial function from paths to documents
      (the TOC PyMuPDF reports and one transformation matrix per page);
    - Python strings are [string]s (the model covers ASCII text), Python
      ints are [Z], Python floats are the kernel's binary64 [float]s, with
      [str] of a float written out in [Py.str_float];
    - what the program prints and every process it starts is recorded in
      a trace, and a run ends with a value, a [SystemExit] or an uncaught
      exception. *)

From Stdlib Require Import String Ascii List ZArith Lia Bool PrimFloat.
From Stdlib Require Import FloatOps SpecFloat.
From Stdlib Require Import DecimalString DecimalPos DecimalZ.
Import ListNotations.

Local Open Scope string_scope.
Local Open Scope list_scope.

(* ================================================================== *)
(** * Python library functions used by the program *)
(* ================================================================== *)

Module Py.

(** ** Characters *)

Definition nl : ascii := "010"%char.
Definition tab : ascii := "009"%char.

Definition is_digit (c : ascii) : bool :=
  let n := nat_of_ascii c in (48 <=? n)%nat && (n <=? 57)%nat.

(** The white space [int] skips around a number: TAB..CR and the space. *)
Definition is_space (c : ascii) : bool :=
  let n := nat_of_ascii c in
  ((9 <=? n)%nat && (n <=? 13)%nat) || (n =? 32)%nat.

Definition digit_val (c : ascii) : Z := Z.of_nat (nat_of_ascii c) - 48.

(** ** [str(i)] for an int, [sep.join], [s.split(sep)], [l[:-1]] *)

Definition str_int (z : Z) : string := NilZero.string_of_int (Z.to_int z).

Definition join (sep : string) (l : list string) : string := String.concat sep l.

(** [s.split(sep)] for a one-character separator: never the empty list. *)
Fixpoint split (sep : ascii) (s : string) : list string :=
  match s with
  | EmptyString => [EmptyString]
  | String c s' =>
      if Ascii.eqb c sep then EmptyString :: split sep s'
      else match split sep s' with
           | [] => [String c EmptyString]
           | h :: t => String c h :: t
           end
  end.

Definition drop_last {A : Type} (l : list A) : list A := removelast l.

(** [l[i]] with Python's negative indices; [None] is [IndexError]. *)
Definition getitem {A : Type} (l : list A) (i : Z) : option A :=
  let n := Z.of_nat (length l) in
  if (0 <=? i)%Z then nth_error l (Z.to_nat i)
  else if (- n <=? i)%Z then nth_error l (Z.to_nat (n + i))
  else None.

(** ** Regular expressions of the program

    [re.search(r"\d*", s).group(0)]: the pattern matches at position 0,
    greedily, so the match is the leading run of digits (possibly empty). *)
Fixpoint leading_digits (s : string) : string :=
  match s with
  | EmptyString => EmptyString
  | String c s' => if is_digit c then String c (leading_digits s') else EmptyString
  end.

(** [re.sub(pat, repl, s)] for a pattern that matches one literal, non-empty
    text [pat], and a replacement without backslashes (the replacements of
    the program are [str] of numbers): every non-overlapping occurrence,
    leftmost first.  [skip] counts the characters of a match still to drop. *)
Fixpoint replace_from (pat repl : string) (skip : nat) (s : string) : string :=
  match s with
  | EmptyString => EmptyString
  | String c s' =>
      match skip with
      | S k => replace_from pat repl k s'
      | O =>
          if String.prefix pat s
          then repl ++ replace_from pat repl (String.length pat - 1) s'
          else String c (replace_from pat repl 0 s')
      end
  end.

Definition replace (pat repl s : string) : string := replace_from pat repl 0 s.

(** [re.sub] of the pattern [.*/] by the empty string: [.] does not match a
    newline, so on every line the greedy match runs from the line's start
    through its last slash. *)
Definition after_last_slash (s : string) : string :=
  last (split "/"%char s) EmptyString.

Definition strip_directories (p : string) : string :=
  join (String nl EmptyString) (map after_last_slash (split nl p)).

(** ** [int(s)] for a string

    Surrounding white space is stripped; an optional sign is followed by
    decimal digits, single underscores allowed between digits, and the
    digits are no more than [sys.int_max_str_digits], 4300 unless the
    interpreter is told otherwise (the program does not).  [None] is
    [ValueError]. *)
Definition int_max_str_digits : Z := 4300.

Fixpoint digit_count (s : string) : Z :=
  match s with
  | EmptyString => 0
  | String c s' => (if is_digit c then 1 else 0) + digit_count s'
  end.

Fixpoint lstrip (s : string) : string :=
  match s with
  | EmptyString => EmptyString
  | String c s' => if is_space c then lstrip s' else s
  end.

Fixpoint rstrip (s : string) : string :=
  match s with
  | EmptyString => EmptyString
  | String c s' =>
      match rstrip s' with
      | EmptyString => if is_space c then EmptyString else String c EmptyString
      | r => String c r
      end
  end.

Definition strip (s : string) : string := rstrip (lstrip s).

(** Digits after the first one: [after_digit] says the previous character
    was a digit (an underscore is legal only then, and not at the end). *)
Fixpoint int_digits (acc : Z) (after_digit : bool) (s : string) : option Z :=
  match s with
  | EmptyString => if after_digit then Some acc else None
  | String c s' =>
      if is_digit c then int_digits (10 * acc + digit_val c) true s'
      else if Ascii.eqb c "_"%char
           then (if after_digit then int_digits acc false s' else None)
           else None
  end.

Definition int_unsigned (s : string) : option Z :=
  match s with
  | EmptyString => None
  | String c _ =>
      if is_digit c
      then (if (int_max_str_digits <? digit_count s)%Z then None
            else int_digits 0 false s)
      else None
  end.

Definition int_of_str (s : string) : option Z :=
  match strip s with
  | EmptyString => None
  | String c s' =>
      if Ascii.eqb c "-"%char then option_map Z.opp (int_unsigned s')
      else if Ascii.eqb c "+"%char then int_unsigned s'
      else int_unsigned (String c s')
  end.

(** ** [str(x)] for a float

    Python writes the shortest run of decimal digits that reads back as
    [x] (of several, the nearest to [x]; of two equally near, the even
    one), with an exponent when the decimal point would fall more than 16
    places right or more than 3 places left of the first digit, and with
    [.0] after a whole number.

    The float is [m * 2^e]; all numbers below are numerators over the
    denominator [den], in units of a quarter of the last place. *)
Fixpoint zeros (n : nat) : string :=
  match n with
  | O => EmptyString
  | S k => String "0" (zeros k)
  end.

Fixpoint strip_zeros_rev (s : list ascii) : list ascii :=
  match s with
  | "0"%char :: s' => strip_zeros_rev s'
  | _ => s
  end.

(** Trailing zeros removed, one digit kept. *)
Definition strip_trailing_zeros (s : string) : string :=
  match rev (strip_zeros_rev (rev (list_ascii_of_string s))) with
  | [] => "0"
  | l => string_of_list_ascii l
  end.

Definition ndigits (z : Z) : Z := Z.of_nat (String.length (str_int z)).

(** [p] with [10^p <= n/d < 10^(p+1)], for positive [n] and [d]. *)
Definition decimal_exponent (n d : Z) : Z :=
  let p := (ndigits n - ndigits d)%Z in
  let ge := if (0 <=? p)%Z then (d * 10 ^ p <=? n)%Z else (d <=? n * 10 ^ (- p))%Z in
  if ge then p else (p - 1)%Z.

(** The two decimals [c * 10^k] of [n] digits next to [x / den], tried for
    membership in the rounding interval from [lo / den] to [hi / den] of the
    float (closed when the float's mantissa is even). *)
Definition candidate (closed : bool) (x lo hi den : Z) (p : Z) (n : Z)
  : option (Z * Z) :=
  let k := (p - n + 1)%Z in
  let sn := if (0 <=? k)%Z then 1%Z else (10 ^ (- k))%Z in
  let sd := if (0 <=? k)%Z then (10 ^ k)%Z else 1%Z in
  let a := (x * sn)%Z in
  let la := (lo * sn)%Z in
  let ha := (hi * sn)%Z in
  let b := (den * sd)%Z in
  let c_lo := (a / b)%Z in
  let c_hi := (c_lo + 1)%Z in
  let inside c :=
    if closed then ((la <=? c * b) && (c * b <=? ha))%Z
    else ((la <? c * b) && (c * b <? ha))%Z in
  let d_lo := (a - c_lo * b)%Z in
  let d_hi := (c_hi * b - a)%Z in
  match inside c_lo, inside c_hi with
  | true, true =>
      if (d_lo <? d_hi)%Z then Some (c_lo, k)
      else if (d_hi <? d_lo)%Z then Some (c_hi, k)
      else if Z.even c_lo then Some (c_lo, k) else Some (c_hi, k)
  | true, false => Some (c_lo, k)
  | false, true => Some (c_hi, k)
  | false, false => None
  end.

(** The first number of digits, from [n] on, that has a decimal in the
    interval; 17 digits always do. *)
Fixpoint shortest_from (closed : bool) (x lo hi den p : Z) (n : Z) (fuel : nat)
  : Z * Z :=
  match fuel with
  | O => ((x * (if (0 <=? p - n + 1)%Z then 1 else 10 ^ (- (p - n + 1)))
           / (den * (if (0 <=? p - n + 1)%Z then 10 ^ (p - n + 1) else 1)))%Z,
          (p - n + 1)%Z)
  | S fuel' =>
      match candidate closed x lo hi den p n with
      | Some ck => ck
      | None => shortest_from closed x lo hi den p (n + 1) fuel'
      end
  end.

(** The digits of the float [m * 2^e] and the place of its decimal point:
    the float reads [0.digits * 10^decpt].  The interval reaches half way to
    the neighbouring floats; the lower neighbour of a power of two is at
    half the distance. *)
Definition shortest_digits (m : positive) (e : Z) : string * Z :=
  let closer := ((Z.pos m =? 2 ^ 52) && (-1074 <? e))%Z in
  let x := (4 * Z.pos m)%Z in
  let hi := (x + 2)%Z in
  let lo := (x - (if closer then 1 else 2))%Z in
  let up := if (0 <=? e - 2)%Z then (2 ^ (e - 2))%Z else 1%Z in
  let den := if (0 <=? e - 2)%Z then 1%Z else (2 ^ (2 - e))%Z in
  let p := decimal_exponent (x * up) den in
  let '(c, k) :=
    shortest_from (Z.even (Z.pos m)) (x * up) (lo * up) (hi * up) den p 1 17 in
  (strip_trailing_zeros (str_int c), (k + ndigits c)%Z).

Definition exponent_str (ex : Z) : string :=
  let a := Z.abs ex in
  (if (ex <? 0)%Z then "-" else "+") ++ (if (a <? 10)%Z then "0" else "") ++ str_int a.

Definition format_digits (ds : string) (decpt : Z) : string :=
  let n := Z.of_nat (String.length ds) in
  if ((16 <? decpt) || (decpt <? -3))%Z then
    match ds with
    | EmptyString => EmptyString
    | String d EmptyString => String d ("e" ++ exponent_str (decpt - 1))
    | String d rest => String d ("." ++ rest ++ "e" ++ exponent_str (decpt - 1))
    end
  else if (decpt <=? 0)%Z then "0." ++ zeros (Z.to_nat (- decpt)) ++ ds
  else if (n <=? decpt)%Z then ds ++ zeros (Z.to_nat (decpt - n)) ++ ".0"
  else substring 0 (Z.to_nat decpt) ds ++ "."
       ++ substring (Z.to_nat decpt) (Z.to_nat (n - decpt)) ds.

Definition str_float (x : float) : string :=
  match Prim2SF x with
  | S754_nan => "nan"
  | S754_infinity s => if s then "-inf" else "inf"
  | S754_zero s => if s then "-0.0" else "0.0"
  | S754_finite s m e =>
      let '(ds, decpt) := shortest_digits m e in
      (if s then "-" else "") ++ format_digits ds decpt
  end.

(** ** [shlex.split(s)]: POSIX mode, [whitespace_split], no comments

    The lexer's states: between tokens, inside a word, inside a quotation,
    and after the escape character (remembering the state to go back to).
    [None] is [ValueError] (no closing quotation, no escaped character). *)
Inductive lex_state :=
| Between
| InWord
| InQuote (q : ascii)
| Escaped (back : option ascii).

Definition is_shlex_space (c : ascii) : bool :=
  Ascii.eqb c " "%char || Ascii.eqb c tab || Ascii.eqb c "013"%char || Ascii.eqb c nl.

Definition dquote : ascii := "034"%char.

Definition is_quote (c : ascii) : bool :=
  Ascii.eqb c "'"%char || Ascii.eqb c dquote.

Definition is_escape (c : ascii) : bool := Ascii.eqb c "\"%char.

Definition snoc (tok : string) (c : ascii) : string := tok ++ String c EmptyString.

(** [tok] is the token read so far, [toks] the finished tokens in order. *)
Fixpoint lex (st : lex_state) (tok : string) (toks : list string) (s : string)
  : option (list string) :=
  match s with
  | EmptyString =>
      match st with
      | Between => Some toks
      | InWord => Some (toks ++ [tok])
      | InQuote _ => None
      | Escaped _ => None
      end
  | String c s' =>
      match st with
      | Between =>
          if is_shlex_space c then lex Between EmptyString toks s'
          else if is_escape c then lex (Escaped None) EmptyString toks s'
          else if is_quote c then lex (InQuote c) EmptyString toks s'
          else lex InWord (String c EmptyString) toks s'
      | InWord =>
          if is_shlex_space c then lex Between EmptyString (toks ++ [tok]) s'
          else if is_quote c then lex (InQuote c) tok toks s'
          else if is_escape c then lex (Escaped None) tok toks s'
          else lex InWord (snoc tok c) toks s'
      | InQuote q =>
          if Ascii.eqb c q then lex InWord tok toks s'
          else if is_escape c && Ascii.eqb q dquote
               then lex (Escaped (Some q)) tok toks s'
               else lex (InQuote q) (snoc tok c) toks s'
      | Escaped None => lex InWord (snoc tok c) toks s'
      | Escaped (Some q) =>
          if negb (is_escape c) && negb (Ascii.eqb c q)
          then lex (InQuote q) (snoc (snoc tok "\"%char) c) toks s'
          else lex (InQuote q) (snoc tok c) toks s'
      end
  end.

Definition shlex_split (s : string) : option (list string) :=
  lex Between EmptyString [] s.

End Py.

(* ================================================================== *)
(** * Runs: traces, outcomes and the monad of the program *)
(* ================================================================== *)

(** The exceptions that can leave a function of the program. *)
Inductive exn :=
| FileNotFoundError
| ValueError
| IndexError
| KeyError
| PyMuPDFError.

(** How a computation ends: with a value, with [exit(code)], or with an
    exception nobody caught. *)
Inductive result (A : Type) :=
| Ok (a : A)
| SysExit (code : Z)
| Raised (e : exn).

Arguments Ok {A} a.
Arguments SysExit {A} code.
Arguments Raised {A} e.

(** What [subprocess.run] met: the process ran to completion and wrote
    [stdout], or its executable was not found.  These are the two outcomes
    the program tells apart; the other errors of starting a process (no
    permission to execute, and the like) are not part of the model, and
    nothing proved below says they cannot happen. *)
Inductive spawn_outcome :=
| Completed (stdout : string)
| NotFound.

Inductive event :=
| Printed (line : string)
| Spawned (argv : list string) (input : option string) (outcome : spawn_outcome).

Definition trace := list event.

Definition M (A : Type) : Type := trace -> result A * trace.

Definition ret {A} (a : A) : M A := fun w => (Ok a, w).

Definition bind {A B} (m : M A) (k : A -> M B) : M B :=
  fun w =>
    match m w with
    | (Ok a, w') => k a w'
    | (SysExit c, w') => (SysExit c, w')
    | (Raised e, w') => (Raised e, w')
    end.

Definition raise {A} (e : exn) : M A := fun w => (Raised e, w).

Definition sys_exit {A} (code : Z) : M A := fun w => (SysExit code, w).

(** [try: m  except FileNotFoundError: handler] *)
Definition except_not_found {A} (m handler : M A) : M A :=
  fun w =>
    match m w with
    | (Raised FileNotFoundError, w') => handler w'
    | r => r
    end.

(** A library call that returns or raises [e]. *)
Definition or_raise {A} (e : exn) (o : option A) : M A :=
  match o with
  | Some a => ret a
  | None => raise e
  end.

Declare Scope run_scope.
Delimit Scope run_scope with run.
Notation "x <- m ;; k" := (bind m (fun x => k))
  (at level 61, m at next level, right associativity) : run_scope.
Notation "m ;;; k" := (bind m (fun _ => k))
  (at level 61, right associativity) : run_scope.

Definition print (line : string) : M unit :=
  fun w => (Ok tt, w ++ [Printed line]).

(* ================================================================== *)
(** * PyMuPDF data *)
(* ================================================================== *)

Record Point := mkPoint { px : float; py : float }.

(** [pymupdf.Point()] *)
Definition Point0 : Point := mkPoint 0%float 0%float.

Record Matrix := mkMatrix {
  ma : float; mb : float; mc : float; md : float; me : float; mf : float }.

(** The destination dictionary of a TOC item: the program reads and writes
    its key ["to"] only (a point when present); [dest_kind] stands for the
    keys it leaves alone. *)
Record Dest := mkDest {
  dest_kind : Z;
  dest_to : option Point }.

(** One item [t] of [doc.get_toc(simple=False)], a Python list
    [[lvl, title, page, dest]]: [t[0]] is the hierarchy level (1 for a top
    entry), [t[1]] the title, [t[2]] the 1-based number of the destination
    page and [t[3]] the destination dictionary. *)
Record TocItem := mkToc {
  t0_lvl : nat;
  t1_title : string;
  t2_page : Z;
  t3_dest : Dest }.

Record Page := mkPage { transformation_matrix : Matrix }.

Record Document := mkDoc {
  doc_toc : list TocItem;
  doc_pages : list Page }.

(** [doc.load_page(n)] for [n >= 0]: [ValueError] ("page not in document")
    unless [n] is below the page count. *)
Definition load_page (doc : Document) (n : nat) : option Page :=
  nth_error (doc_pages doc) n.

(** The affine map PyMuPDF documents for [Point * Matrix], in binary64
    arithmetic (PyMuPDF may round through single precision: the scenarios
    use it at values where both agree, and the program takes the operation
    as a parameter). *)
Definition affine (p : Point) (m : Matrix) : Point :=
  mkPoint (px p * ma m + py p * mc m + me m)%float
          (px p * mb m + py p * md m + mf m)%float.

(* ================================================================== *)
(** * The program *)
(* ================================================================== *)

(** Command line arguments, as [argparse] hands them to [main]. *)
Record Args := mkArgs {
  full_path : bool;
  no_toc : bool;
  hidden : bool;
  base_directory : option string;
  selector : option string;
  selector_indices : bool;
  pdf_selector_args : option string;
  toc_selector_args : option string;
  pdf_viewer : option string;
  pdf_viewer_args : option string;
  mupdf_coordinate_space : bool;
  search_cmd : option string }.

(** [merge_strings], on the tuple of its arguments. *)
Definition merge_strings (strings : list (option string)) : option string :=
  let filtered_strings :=
    flat_map (fun s => match s with Some x => [x] | None => [] end) strings in
  match filtered_strings with
  | [] => None
  | _ => Some (Py.join " " filtered_strings)
  end.

(** The loop [for i in range(len(items)): items[i] = f"{i}\t{items[i]}"]:
    [set_item] is the assignment [items[i] = v] for [i] in range. *)
Fixpoint set_item {A} (l : list A) (i : nat) (v : A) : list A :=
  match l, i with
  | [], _ => []
  | _ :: t, O => v :: t
  | h :: t, S j => h :: set_item t j v
  end.

Definition index_item (i : nat) (item : string) : string :=
  Py.str_int (Z.of_nat i) ++ String Py.tab item.

Definition index_items (items : list string) : list string :=
  fold_left
    (fun l i => set_item l i (index_item i (nth i l EmptyString)))
    (seq 0 (length items)) items.

(** The value of the variable [selection] of [select]: the selector's text,
    or the int -1. *)
Inductive selection_value :=
| SelStr (s : string)
| SelInt (z : Z).

Section Program.

(** [subprocess.run]'s view of the machine: what starting [argv] with
    [input] on standard input gives, after the events so far. *)
Variable spawn : trace -> list string -> option string -> spawn_outcome.

(** [pymupdf.open(path)]; [None] when PyMuPDF cannot open the file. *)
Variable pymupdf_open : string -> option Document.

(** PyMuPDF's [Point * Matrix]. *)
Variable transform : Point -> Matrix -> Point.

(** [str(x)] for a float. *)
Variable float_str : float -> string.

(** [expandvars("$HOME")] *)
Variable home : string.

Local Open Scope run_scope.

(** [subprocess.run(argv, ..., input=input).stdout]: an empty argument vector
    has no [argv[0]] to execute, a missing executable raises
    [FileNotFoundError]. *)
Definition subprocess_run (argv : list string) (input : option string) : M string :=
  fun w =>
    match argv with
    | [] => (Raised IndexError, w)
    | _ =>
        match spawn w argv input with
        | Completed out => (Ok out, w ++ [Spawned argv input (Completed out)])
        | NotFound => (Raised FileNotFoundError, w ++ [Spawned argv input NotFound])
        end
    end.

Definition send_error {A} (error : string) : M A :=
  print error ;;;
  except_not_found
    (subprocess_run ["notify-send"; error] None ;;; ret tt)
    (ret tt) ;;;
  sys_exit 1.

Definition try_running_subprocess
    (cmd : list string) (not_found_error : string) (input : option string) : M string :=
  except_not_found (subprocess_run cmd input) (send_error not_found_error).

Definition lines (stdout : string) : list string :=
  Py.drop_last (Py.split Py.nl stdout).

Definition search_pdfs (base_directory : string) (cmd : option string) (hidden : bool)
  : M (list string) :=
  match cmd with
  | Some cmd =>
      argv <- or_raise ValueError (Py.shlex_split cmd) ;;
      out <- try_running_subprocess argv "Command not found!" None ;;
      ret (lines out)
  | None =>
      let cmd := ["fd"; "-I"; "-t"; "f"; "-e"; "pdf"; "-a"; "."; base_directory] in
      let cmd := if hidden then cmd ++ ["-H"] else cmd in
      except_not_found
        (out <- subprocess_run cmd None ;; ret (lines out))
        (out <- subprocess_run
                  ["find"; base_directory; "-type"; "f"; "-name"; "*.pdf"] None ;;
         ret (lines out))
  end.

(** [select] returns its [int], and leaves the caller's list object [items]
    in the state given as second component (whatever way [select] ends). *)
Definition select (items : list string) (cmd : option string) (indices check : bool)
  : trace -> result Z * list string * trace :=
  fun w =>
    let indices := match cmd with None => true | Some _ => indices end in
    let cmd := match cmd with None => "fzf --with-nth 2.." | Some c => c end in
    let items := if indices then index_items items else items in
    let run : M Z :=
      argv <- or_raise ValueError (Py.shlex_split cmd) ;;
      selection <- try_running_subprocess argv
                     ("Selector (" ++ cmd ++ ") not found!")
                     (Some (Py.join (String Py.nl EmptyString) items)) ;;
      let selection := if indices then Py.leading_digits selection else selection in
      selection <-
        (match selection with
         | EmptyString =>
             if check then send_error "Nothing selected!" else ret (SelInt (-1))
         | _ => ret (SelStr selection)
         end) ;;
      match selection with
      | SelStr s => or_raise ValueError (Py.int_of_str s)
      | SelInt z => ret z
      end in
    let '(r, w') := run w in
    (r, items, w').

(** The items of the TOC, each with a point under ["to"]. *)
Fixpoint get_toc_items (doc : Document) (mupdf_coordinate_space : bool)
    (ts : list TocItem) : result (list TocItem) :=
  match ts with
  | [] => Ok []
  | t :: rest =>
      match load_page doc (t0_lvl t) with
      | None => Raised ValueError
      | Some page =>
          let coords :=
            match dest_to (t3_dest t) with
            | Some p => p
            | None => Point0
            end in
          let coords :=
            if mupdf_coordinate_space
            then transform coords (transformation_matrix page)
            else coords in
          let t := mkToc (t0_lvl t) (t1_title t) (t2_page t)
                         (mkDest (dest_kind (t3_dest t)) (Some coords)) in
          match get_toc_items doc mupdf_coordinate_space rest with
          | Ok toc => Ok (t :: toc)
          | r => r
          end
      end
  end.

Definition get_toc (path : string) (mupdf_coordinate_space : bool) : M (list TocItem) :=
  doc <- or_raise PyMuPDFError (pymupdf_open path) ;;
  fun w => (get_toc_items doc mupdf_coordinate_space (doc_toc doc), w).

Definition position := (Z * float * float)%type.

(** The three [re.sub] calls, in the order of [pos_strings]. *)
Definition substitute (position_args : string) (pos : position) : string :=
  let '(page, xloc, yloc) := pos in
  let position_args := Py.replace "$page" (Py.str_int page) position_args in
  let position_args := Py.replace "$xloc" (float_str xloc) position_args in
  Py.replace "$yloc" (float_str yloc) position_args.

Definition open_pdf (path : string) (cmd : option string)
    (position_args : option string) (pos : option position) : M unit :=
  let position_args :=
    match cmd with None => Some "-P $page" | Some _ => position_args end in
  let cmd := match cmd with None => "zathura" | Some c => c end in
  match pos with
  | None =>
      argv <- or_raise ValueError (Py.shlex_split cmd) ;;
      try_running_subprocess (argv ++ [path])
        ("PDF viewer (" ++ cmd ++ ") not found!") None ;;;
      ret tt
  | Some pos =>
      let position_args :=
        match position_args with
        | None | Some EmptyString => EmptyString
        | Some pa => substitute pa pos
        end in
      argv <- or_raise ValueError (Py.shlex_split cmd) ;;
      extra <- or_raise ValueError (Py.shlex_split position_args) ;;
      try_running_subprocess (argv ++ [path] ++ extra)
        ("PDF viewer (" ++ cmd ++ ") not found!") None ;;;
      ret tt
  end.

(** [select] inside [main]: the list handed over is a temporary. *)
Definition select_ (items : list string) (cmd : option string) (indices check : bool)
  : M Z :=
  fun w => let '(r, _, w') := select items cmd indices check w in (r, w').

Definition main (args : Args) : M unit :=
  let search_dir :=
    match base_directory args with Some b => b | None => home end in
  pdfs <- search_pdfs search_dir (search_cmd args) (hidden args) ;;
  let pdf_items :=
    map (fun p => if full_path args then p else Py.strip_directories p) pdfs in
  i <- select_ pdf_items
         (merge_strings [selector args; pdf_selector_args args])
         (selector_indices args) true ;;
  selected_pdf <- or_raise IndexError (Py.getitem pdfs i) ;;
  toc <- get_toc selected_pdf (mupdf_coordinate_space args) ;;
  if (length toc =? 0)%nat || no_toc args then
    open_pdf selected_pdf (pdf_viewer args) None None
  else
    toc_index <- select_ (map t1_title toc)
                   (merge_strings [selector args; toc_selector_args args])
                   (selector_indices args) false ;;
    if (0 <=? toc_index)%Z then
      t <- or_raise IndexError (Py.getitem toc toc_index) ;;
      toc_point <- or_raise KeyError (dest_to (t3_dest t)) ;;
      let toc_position := (t2_page t, px toc_point, py toc_point) in
      open_pdf selected_pdf (pdf_viewer args) (pdf_viewer_args args) (Some toc_position)
    else
      open_pdf selected_pdf (pdf_viewer args) None None.

End Program.

(* ================================================================== *)
(** * Specification-side definitions *)
(* ================================================================== *)

(** The items as the selector sees them with index prefixes: item [k], [k+1],
    ... of the list, each behind its own index and a TAB. *)
Fixpoint number_from (k : nat) (items : list string) : list string :=
  match items with
  | [] => []
  | item :: rest => index_item k item :: number_from (S k) rest
  end.

(** The value of a run of decimal digits, most significant first. *)
Fixpoint digits_value (acc : Z) (ds : string) : Z :=
  match ds with
  | EmptyString => acc
  | String c ds' => digits_value (10 * acc + Py.digit_val c) ds'
  end.

Fixpoint all_digits (ds : string) : bool :=
  match ds with
  | EmptyString => true
  | String c ds' => Py.is_digit c && all_digits ds'
  end.

(** [rest] does not go on with a digit. *)
Definition no_digit_ahead (rest : string) : bool :=
  match rest with
  | EmptyString => true
  | String c _ => negb (Py.is_digit c)
  end.

Fixpoint no_space (s : string) : bool :=
  match s with
  | EmptyString => true
  | String c s' => negb (Py.is_space c) && no_space s'
  end.

(** The first white-space delimited token of a text. *)
Fixpoint take_word (s : string) : string :=
  match s with
  | EmptyString => EmptyString
  | String c s' => if Py.is_space c then EmptyString else String c (take_word s')
  end.

Definition leading_token (s : string) : string := take_word (Py.lstrip s).

(** The command [select] and [open_pdf] run when none is given. *)
Definition selector_cmd (cmd : option string) : string :=
  match cmd with None => "fzf --with-nth 2.." | Some c => c end.

Definition viewer_cmd (cmd : option string) : string :=
  match cmd with None => "zathura" | Some c => c end.

(** Index prefixes are on: asked for, or forced by the default selector. *)
Definition prefixing (cmd : option string) (indices : bool) : bool :=
  match cmd with None => true | Some _ => indices end.

Definition newline : string := String Py.nl EmptyString.

(** What [send_error] leaves in the trace: the printed line and the attempt
    to notify, whatever became of it. *)
Definition error_events
    (spawn : trace -> list string -> option string -> spawn_outcome)
    (w : trace) (error : string) : trace :=
  [Printed error;
   Spawned ["notify-send"; error] None
     (spawn (w ++ [Printed error]) ["notify-send"; error] None)].

(** A TOC item with the zero point put where it has none. *)
Definition with_zero_point (t : TocItem) : TocItem :=
  match dest_to (t3_dest t) with
  | Some _ => t
  | None => mkToc (t0_lvl t) (t1_title t) (t2_page t)
                  (mkDest (dest_kind (t3_dest t)) (Some Point0))
  end.

Definition has_point (t : TocItem) : Prop := dest_to (t3_dest t) <> None.

(** The matrix of the page a TOC item points to: [t[2]] counts pages from 1,
    the document's pages are numbered from 0. *)
Definition target_page_matrix (doc : Document) (t : TocItem) : option Matrix :=
  if (1 <=? t2_page t)%Z
  then option_map transformation_matrix
         (nth_error (doc_pages doc) (Z.to_nat (t2_page t - 1)))
  else None.

(** What starting the viewer with the argument vector [argv] comes to: the
    attempt is recorded; a viewer that is not found is reported by
    [send_error]. *)
Definition viewer_outcome
    (spawn : trace -> list string -> option string -> spawn_outcome)
    (cmd : string) (argv : list string) (w : trace) : result unit * trace :=
  match spawn w argv None with
  | Completed out => (Ok tt, w ++ [Spawned argv None (Completed out)])
  | NotFound =>
      let w1 := w ++ [Spawned argv None NotFound] in
      (SysExit 1,
       w1 ++ error_events spawn w1 ("PDF viewer (" ++ cmd ++ ") not found!"))
  end.

Definition with_viewer_args (args : Args) (pa : option string) : Args :=
  mkArgs (full_path args) (no_toc args) (hidden args) (base_directory args)
         (selector args) (selector_indices args) (pdf_selector_args args)
         (toc_selector_args args) (pdf_viewer args) pa
         (mupdf_coordinate_space args) (search_cmd args).

(** The text has no character [c]. *)
Fixpoint no_char (c : ascii) (s : string) : bool :=
  match s with
  | EmptyString => true
  | String c' s' => negb (Ascii.eqb c' c) && no_char c s'
  end.

(** What a tool that writes one path per line writes for [paths]. *)
Fixpoint unlines (paths : list string) : string :=
  match paths with
  | [] => EmptyString
  | p :: rest => p ++ newline ++ unlines rest
  end.

(** A character [shlex] and the templates treat as an ordinary one: no
    white space, no quote, no backslash, no dollar. *)
Definition plain_char (c : ascii) : bool :=
  negb (Py.is_shlex_space c) && negb (Py.is_quote c) && negb (Py.is_escape c)
  && negb (Ascii.eqb c "$").

Fixpoint plain (s : string) : bool :=
  match s with
  | EmptyString => true
  | String c s' => plain_char c && plain s'
  end.

(** A decimal numeral: an optional minus sign, digits, then optionally a
    point and digits, then optionally [e], a sign and digits. *)
Inductive numeral_state :=
| NSign | NIntFirst | NInt | NFracFirst | NFrac | NExpSign | NExpFirst | NExp.

Fixpoint numeral_from (st : numeral_state) (s : string) : bool :=
  match s with
  | EmptyString =>
      match st with
      | NInt | NFrac | NExp => true
      | _ => false
      end
  | String c s' =>
      match st with
      | NSign =>
          if Ascii.eqb c "-" then numeral_from NIntFirst s'
          else if Py.is_digit c then numeral_from NInt s' else false
      | NIntFirst => if Py.is_digit c then numeral_from NInt s' else false
      | NInt =>
          if Py.is_digit c then numeral_from NInt s'
          else if Ascii.eqb c "." then numeral_from NFracFirst s'
          else if Ascii.eqb c "e" then numeral_from NExpSign s' else false
      | NFracFirst => if Py.is_digit c then numeral_from NFrac s' else false
      | NFrac =>
          if Py.is_digit c then numeral_from NFrac s'
          else if Ascii.eqb c "e" then numeral_from NExpSign s' else false
      | NExpSign =>
          if Ascii.eqb c "+" || Ascii.eqb c "-" then numeral_from NExpFirst s'
          else false
      | NExpFirst => if Py.is_digit c then numeral_from NExp s' else false
      | NExp => if Py.is_digit c then numeral_from NExp s' else false
      end
  end.

Definition decimal_numeral (s : string) : bool := numeral_from NSign s.

(** The argument vectors of the default search. *)
Definition fd_argv (base : string) (hidden : bool) : list string :=
  ["fd"; "-I"; "-t"; "f"; "-e"; "pdf"; "-a"; "."; base]
    ++ (if hidden then ["-H"] else []).

Definition find_argv (base : string) : list string :=
  ["find"; base; "-type"; "f"; "-name"; "*.pdf"].

(* ================================================================== *)
(** * Scenarios: concrete machines, documents and arguments *)
(* ================================================================== *)

(** Machines: one where no executable exists, one where every command runs
    and writes [out]. *)
Definition no_executables : trace -> list string -> option string -> spawn_outcome :=
  fun _ _ _ => NotFound.

Definition answering (out : string)
  : trace -> list string -> option string -> spawn_outcome :=
  fun _ _ _ => Completed out.

(** A PDF page of height [h]: PyMuPDF's transformation matrix flips the
    vertical axis. *)
Definition page_of_height (h : float) : Page :=
  mkPage (mkMatrix 1 0 0 (-1) 0 h).

(** Three pages of different heights, and two top-level bookmarks: to page 1
    and to page 3, both at the point (10, 20). *)
Definition intro_item : TocItem := mkToc 1 "Intro" 1 (mkDest 1 (Some (mkPoint 10 20))).
Definition end_item : TocItem := mkToc 1 "End" 3 (mkDest 1 (Some (mkPoint 10 20))).

Definition three_pages : Document :=
  mkDoc [intro_item; end_item]
        [page_of_height 100; page_of_height 200; page_of_height 300].

(** A bookmark to a web address has no key ["to"]. *)
Definition web_item : TocItem := mkToc 1 "Homepage" (-1) (mkDest 2 None).

Definition linked_doc : Document :=
  mkDoc [intro_item; web_item] [page_of_height 100; page_of_height 200].

(** [str] on the floats of the scenarios. *)
Definition short_float_str (x : float) : string :=
  if PrimFloat.eqb x 10.5 then "10.5"
  else if PrimFloat.eqb x 20.25 then "20.25"
  else if PrimFloat.eqb x 10 then "10.0"
  else if PrimFloat.eqb x 180 then "180.0"
  else "0.0".

Definition sioyek_template : string := "--page $page --xloc $xloc --yloc $yloc".

(** A desk where [fd] lists two files, the user picks line 1 in the first
    [fzf] dialogue and leaves the second one without choosing, and
    [zathura] is installed; nothing else is. *)
Definition desk (w : trace) (argv : list string) (input : option string)
  : spawn_outcome :=
  match argv with
  | "fd" :: _ =>
      Completed ("/home/u/a.pdf" ++ newline ++ "/home/u/papers/b.pdf" ++ newline)
  | "fzf" :: _ =>
      if (length w =? 1)%nat
      then Completed ("1" ++ String Py.tab "b.pdf" ++ newline)
      else Completed EmptyString
  | "zathura" :: _ => Completed EmptyString
  | _ => NotFound
  end.

Definition library (path : string) : option Document :=
  if String.eqb path "/home/u/papers/b.pdf" then Some three_pages
  else if String.eqb path "/home/u/a.pdf" then Some linked_doc
  else None.

Definition plain_args : Args :=
  mkArgs false false false None None false None None None None false None.

(** A machine without [fd], where [find] lists two files. *)
Definition find_only (w : trace) (argv : list string) (input : option string)
  : spawn_outcome :=
  match argv with
  | "find" :: _ => Completed (unlines ["/home/u/a.pdf"; "/home/u/papers/b.pdf"])
  | _ => NotFound
  end.

(** A one-page document with one bookmark. *)
Definition leaflet : Document := mkDoc [intro_item] [page_of_height 100].

(** The files of [library], and a leaflet of one page. *)
Definition shelf (path : string) : option Document :=
  if String.eqb path "/home/u/leaflet.pdf" then Some leaflet else library path.

(** The desk with the no-TOC flag, and a shelf of files PyMuPDF cannot
    open. *)
Definition no_toc_args : Args :=
  mkArgs false true false None None false None None None None false None.

Definition unreadable (path : string) : option Document := None.

(** A desk where [fd] finds the leaflet alone and the user picks it. *)
Definition leaflet_desk (w : trace) (argv : list string) (input : option string)
  : spawn_outcome :=
  match argv with
  | "fd" :: _ => Completed (unlines ["/home/u/leaflet.pdf"])
  | "fzf" :: _ => Completed ("0" ++ String Py.tab "leaflet.pdf" ++ newline)
  | "zathura" :: _ => Completed EmptyString
  | _ => NotFound
  end.

(** The desk with a selector that answers 7 to the two files, and one that
    picks file 1 and then answers 5 to the two TOC entries. *)
Definition desk_answering_seven (w : trace) (argv : list string)
    (input : option string) : spawn_outcome :=
  match argv with
  | "fd" :: _ => Completed (unlines ["/home/u/a.pdf"; "/home/u/papers/b.pdf"])
  | "fzf" :: _ => Completed ("7" ++ newline)
  | "zathura" :: _ => Completed EmptyString
  | _ => NotFound
  end.

Definition desk_answering_five (w : trace) (argv : list string)
    (input : option string) : spawn_outcome :=
  match argv with
  | "fd" :: _ => Completed (unlines ["/home/u/a.pdf"; "/home/u/papers/b.pdf"])
  | "fzf" :: _ =>
      if (length w =? 1)%nat
      then Completed ("1" ++ String Py.tab "b.pdf" ++ newline)
      else Completed ("5" ++ newline)
  | "zathura" :: _ => Completed EmptyString
  | _ => NotFound
  end.

Definition with_template (template : string) : Args :=
  with_viewer_args plain_args (Some template).

(** The desk again, with a user who picks line 1 in both dialogues. *)
Definition choosing_desk (w : trace) (argv : list string) (input : option string)
  : spawn_outcome :=
  match argv with
  | "fd" :: _ => Completed (unlines ["/home/u/a.pdf"; "/home/u/papers/b.pdf"])
  | "fzf" :: _ =>
      if (length w =? 1)%nat
      then Completed ("1" ++ String Py.tab "b.pdf" ++ newline)
      else Completed ("1" ++ String Py.tab "End" ++ newline)
  | "zathura" :: _ => Completed EmptyString
  | _ => NotFound
  end.


(* ================================================================== *)
(** * Properties of the program *)
(* ================================================================== *)

(** Replaces the value of a digit character by its numeral. *)
Ltac eval_digit :=
  match goal with
  | |- context [Py.digit_val ?c] =>
      let v := eval vm_compute in (Py.digit_val c) in
      change (Py.digit_val c) with v
  end.

Section Facts.

Variable spawn : trace -> list string -> option string -> spawn_outcome.
Variable pymupdf_open : string -> option Document.
Variable transform : Point -> Matrix -> Point.
Variable float_str : float -> string.
Variable home : string.

(** ** Runs of the process helpers *)

Lemma send_error_run (A : Type) (error : string) (w : trace) :
  @send_error spawn A error w = (SysExit 1, w ++ error_events spawn w error).
Proof.
  unfold send_error, error_events, bind, print, except_not_found, subprocess_run.
  destruct (spawn (w ++ [Printed error]) ["notify-send"; error] None);
    cbn; rewrite <- app_assoc; reflexivity.
Qed.

Lemma try_running_completed argv msg input w out :
  argv <> [] ->
  spawn w argv input = Completed out ->
  try_running_subprocess spawn argv msg input w
  = (Ok out, w ++ [Spawned argv input (Completed out)]).
Proof.
  intros Hne Hs. unfold try_running_subprocess, except_not_found, subprocess_run.
  destruct argv as [|a argv]; [congruence|]. rewrite Hs. reflexivity.
Qed.

Lemma try_running_not_found argv msg input w :
  argv <> [] ->
  spawn w argv input = NotFound ->
  try_running_subprocess spawn argv msg input w
  = (SysExit 1,
     (w ++ [Spawned argv input NotFound])
       ++ error_events spawn (w ++ [Spawned argv input NotFound]) msg).
Proof.
  intros Hne Hs. unfold try_running_subprocess, except_not_found, subprocess_run.
  destruct argv as [|a argv]; [congruence|]. rewrite Hs.
  apply send_error_run.
Qed.

(** ** The index loop of [select] *)

Lemma set_item_app {A} (pre : list A) (x v : A) (rest : list A) :
  set_item (pre ++ x :: rest) (length pre) v = pre ++ v :: rest.
Proof. induction pre as [|p pre IH]; cbn; [reflexivity | now rewrite IH]. Qed.

Lemma nth_app_here {A} (pre : list A) (x d : A) (rest : list A) :
  nth (length pre) (pre ++ x :: rest) d = x.
Proof. induction pre as [|p pre IH]; cbn; [reflexivity | exact IH]. Qed.

Lemma index_loop_from (rest pre : list string) :
  fold_left
    (fun l i => set_item l i (index_item i (nth i l EmptyString)))
    (seq (length pre) (length rest)) (pre ++ rest)
  = pre ++ number_from (length pre) rest.
Proof.
  revert pre. induction rest as [|x rest IH]; intros pre; cbn [length seq fold_left number_from].
  - reflexivity.
  - rewrite nth_app_here, set_item_app.
    replace (pre ++ index_item (length pre) x :: rest)
      with ((pre ++ [index_item (length pre) x]) ++ rest)
      by (rewrite <- app_assoc; reflexivity).
    replace (S (length pre)) with (length (pre ++ [index_item (length pre) x]))
      by (rewrite length_app; cbn; lia).
    rewrite IH, <- app_assoc. reflexivity.
Qed.

Lemma index_items_number (items : list string) :
  index_items items = number_from 0 items.
Proof. exact (index_loop_from items []). Qed.

Lemma number_from_nth (items : list string) (k i : nat) :
  nth_error (number_from k items) i
  = option_map (index_item (k + i)) (nth_error items i).
Proof.
  revert k i. induction items as [|x items IH]; intros k [|i]; cbn; try reflexivity.
  - now rewrite Nat.add_0_r.
  - rewrite IH. now replace (S k + i)%nat with (k + S i)%nat by lia.
Qed.

Lemma number_from_length (items : list string) (k : nat) :
  length (number_from k items) = length items.
Proof. revert k. induction items; intros; cbn; auto. Qed.

Lemma select_items_state items cmd indices check w :
  snd (fst (select spawn items cmd indices check w))
  = if prefixing cmd indices then index_items items else items.
Proof.
  unfold select, prefixing.
  match goal with |- context [let '(r, w') := ?run w in _] => destruct (run w) as [r w'] end.
  destruct cmd; reflexivity.
Qed.

(** C9. With index prefixes on (asked for by [indices], or forced because no
    selector command was given), [select] leaves the caller's list changed:
    when [select] is over (by return, exit or exception) the list has its
    old length and item [i] is the decimal index [i], a TAB, and the old
    item [i]; nothing puts the old items back. *)
Theorem select_mutates_items items cmd indices check w :
  indices = true \/ cmd = None ->
  let items' := snd (fst (select spawn items cmd indices check w)) in
  length items' = length items /\
  (forall i, nth_error items' i
             = option_map
                 (fun item => (Py.str_int (Z.of_nat i) ++ String Py.tab item)%string)
                 (nth_error items i)) /\
  (items <> [] -> items' <> items).
Proof.
  intros Hon items'.
  assert (E : items' = number_from 0 items).
  { subst items'. rewrite select_items_state, index_items_number.
    destruct Hon as [-> | ->]; [destruct cmd|]; reflexivity. }
  rewrite E. split; [apply number_from_length|]. split.
  - intros i. apply (number_from_nth items 0 i).
  - intros Hne Heq. destruct items as [|x items]; [congruence|].
    cbn in Heq. injection Heq as Hx _.
    apply (f_equal String.length) in Hx.
    cbn in Hx. lia.
Qed.

(** ** What [select] does once the selector has run *)

Lemma select_completed items cmd indices check w argv out :
  Py.shlex_split (selector_cmd cmd) = Some argv ->
  argv <> [] ->
  let items' := if prefixing cmd indices then index_items items else items in
  let input := Some (Py.join newline items') in
  spawn w argv input = Completed out ->
  let w1 := w ++ [Spawned argv input (Completed out)] in
  select spawn items cmd indices check w
  = match (if prefixing cmd indices then Py.leading_digits out else out) with
    | EmptyString =>
        if check
        then (SysExit 1, items', w1 ++ error_events spawn w1 "Nothing selected!")
        else (Ok (-1)%Z, items', w1)
    | sel =>
        (match Py.int_of_str sel with Some z => Ok z | None => Raised ValueError end,
         items', w1)
    end.
Proof.
  intros Hsplit Hne items' input Hs w1.
  unfold select.
  replace (match cmd with Some _ => indices | None => true end)
    with (prefixing cmd indices) by reflexivity.
  replace (match cmd with Some c => c | None => "fzf --with-nth 2.." end)
    with (selector_cmd cmd) by reflexivity.
  fold items'. unfold bind at 1. rewrite Hsplit. cbn [or_raise ret].
  unfold bind at 1. fold newline. fold input.
  rewrite (try_running_completed _ _ _ _ _ Hne Hs). fold w1.
  destruct (if prefixing cmd indices then Py.leading_digits out else out) as [|c sel].
  - destruct check.
    + unfold bind. rewrite send_error_run. reflexivity.
    + reflexivity.
  - unfold bind, ret, or_raise.
    destruct (Py.int_of_str (String c sel)); reflexivity.
Qed.

(** ** Digit runs: [\d*] and [int] *)

Lemma leading_digits_app (ds rest : string) :
  all_digits ds = true ->
  no_digit_ahead rest = true ->
  Py.leading_digits (ds ++ rest) = ds.
Proof.
  intros Hds Hrest. induction ds as [|c ds IH]; cbn in *.
  - destruct rest as [|c rest]; [reflexivity|]. cbn in *.
    now destruct (Py.is_digit c).
  - apply andb_true_iff in Hds as [Hc Hds]. rewrite Hc, (IH Hds). reflexivity.
Qed.

Lemma digit_not_space (c : ascii) : Py.is_digit c = true -> Py.is_space c = false.
Proof.
  unfold Py.is_digit, Py.is_space. intros H.
  apply andb_true_iff in H as [H1 H2].
  apply Nat.leb_le in H1. apply Nat.leb_le in H2.
  apply orb_false_iff. split.
  - apply andb_false_iff. right. apply Nat.leb_gt. lia.
  - apply Nat.eqb_neq. lia.
Qed.

Lemma rstrip_digits (ds : string) : all_digits ds = true -> Py.rstrip ds = ds.
Proof.
  induction ds as [|c ds IH]; cbn; [reflexivity|].
  intros H. apply andb_true_iff in H as [Hc Hds].
  rewrite (IH Hds). destruct ds; [|reflexivity].
  now rewrite (digit_not_space c Hc).
Qed.

Lemma strip_digits (ds : string) : all_digits ds = true -> Py.strip ds = ds.
Proof.
  intros H. unfold Py.strip.
  replace (Py.lstrip ds) with ds; [now apply rstrip_digits|].
  destruct ds as [|c ds]; [reflexivity|]. cbn in *.
  apply andb_true_iff in H as [Hc _]. now rewrite (digit_not_space c Hc).
Qed.

Lemma int_digits_run (ds : string) (acc : Z) (b : bool) :
  all_digits ds = true -> ds <> EmptyString ->
  Py.int_digits acc b ds = Some (digits_value acc ds).
Proof.
  revert acc b. induction ds as [|c ds IH]; intros acc b H Hne; [congruence|].
  cbn in *. apply andb_true_iff in H as [Hc Hds]. rewrite Hc.
  destruct ds as [|c' ds]; [reflexivity|].
  apply IH; [exact Hds | discriminate].
Qed.

Lemma digit_not_sign (c : ascii) :
  Py.is_digit c = true -> Ascii.eqb c "-" = false /\ Ascii.eqb c "+" = false.
Proof.
  intros H. split; apply Ascii.eqb_neq; intros ->; discriminate H.
Qed.

Lemma digit_count_digits (ds : string) :
  all_digits ds = true -> Py.digit_count ds = Z.of_nat (String.length ds).
Proof.
  induction ds as [|c ds IH]; [reflexivity|].
  cbn [all_digits Py.digit_count String.length]. intros H.
  apply andb_true_iff in H as [Hc Hds]. rewrite Hc, (IH Hds). lia.
Qed.

Lemma int_of_digits (ds : string) :
  all_digits ds = true -> ds <> EmptyString ->
  (Z.of_nat (String.length ds) <= Py.int_max_str_digits)%Z ->
  Py.int_of_str ds = Some (digits_value 0 ds).
Proof.
  intros H Hne Hlen. unfold Py.int_of_str. rewrite (strip_digits ds H).
  pose proof (int_digits_run ds 0 false H Hne) as Hrun.
  pose proof (digit_count_digits ds H) as Hcount.
  destruct ds as [|c ds]; [congruence|].
  pose proof H as H'. cbn [all_digits] in H'. apply andb_true_iff in H' as [Hc _].
  destruct (digit_not_sign c Hc) as [-> ->].
  unfold Py.int_unsigned. rewrite Hc, Hcount.
  replace (Py.int_max_str_digits <? Z.of_nat (String.length (String c ds)))%Z
    with false by (symmetry; apply Z.ltb_ge; exact Hlen).
  exact Hrun.
Qed.

(** A run of more digits than the limit is refused. *)
Lemma int_of_long_digits (ds : string) :
  all_digits ds = true ->
  (Py.int_max_str_digits < Z.of_nat (String.length ds))%Z ->
  Py.int_of_str ds = None.
Proof.
  intros H Hlen. unfold Py.int_of_str. rewrite (strip_digits ds H).
  pose proof (digit_count_digits ds H) as Hcount.
  destruct ds as [|c ds]; [reflexivity|].
  pose proof H as H'. cbn [all_digits] in H'. apply andb_true_iff in H' as [Hc _].
  destruct (digit_not_sign c Hc) as [-> ->].
  unfold Py.int_unsigned. rewrite Hc, Hcount.
  replace (Py.int_max_str_digits <? Z.of_nat (String.length (String c ds)))%Z
    with true by (symmetry; apply Z.ltb_lt; exact Hlen).
  reflexivity.
Qed.

(** ** [str] of a natural number is a digit run with that value *)

Lemma uint_digits (u : Decimal.uint) : all_digits (NilEmpty.string_of_uint u) = true.
Proof. induction u; cbn; auto. Qed.

Lemma uint_value_acc (u : Decimal.uint) (p : positive) :
  digits_value (Z.pos p) (NilEmpty.string_of_uint u) = Z.pos (Pos.of_uint_acc u p).
Proof.
  revert p. induction u; intros p; cbn [NilEmpty.string_of_uint digits_value Pos.of_uint_acc];
    [reflexivity | ..];
    eval_digit;
    match goal with
    | |- digits_value ?a _ = Z.pos (Pos.of_uint_acc _ ?q) =>
        replace a with (Z.pos q) by lia
    end; apply IHu.
Qed.

Lemma uint_value (u : Decimal.uint) :
  digits_value 0 (NilEmpty.string_of_uint u) = Z.of_N (Pos.of_uint u).
Proof.
  induction u; cbn [NilEmpty.string_of_uint digits_value Pos.of_uint];
    [reflexivity | exact IHu | ..];
    eval_digit;
    match goal with
    | |- digits_value ?a _ = Z.of_N (N.pos (Pos.of_uint_acc _ ?q)) =>
        replace a with (Z.pos q) by lia
    end; apply uint_value_acc.
Qed.

Lemma str_nat_digits (n : nat) :
  let ds := Py.str_int (Z.of_nat n) in
  all_digits ds = true /\ ds <> EmptyString /\ digits_value 0 ds = Z.of_nat n.
Proof.
  unfold Py.str_int. destruct (Z.of_nat n) as [|p|p] eqn:E; [| |lia].
  - cbn. repeat split; discriminate.
  - cbn [Z.to_int NilZero.string_of_int].
    assert (Hu : Pos.to_uint p <> Decimal.Nil).
    { intros Hnil. pose proof (DecimalPos.Unsigned.of_to p) as Hp.
      rewrite Hnil in Hp. discriminate Hp. }
    assert (Es : NilZero.string_of_uint (Pos.to_uint p)
                 = NilEmpty.string_of_uint (Pos.to_uint p)).
    { unfold NilZero.string_of_uint. destruct (Pos.to_uint p); congruence. }
    rewrite Es. repeat split.
    + apply uint_digits.
    + destruct (Pos.to_uint p); cbn; congruence.
    + rewrite uint_value, DecimalPos.Unsigned.of_to. reflexivity.
Qed.

(** ** The first token of a text that [int] accepts *)

Lemma int_digits_no_space (s : string) (acc : Z) (b : bool) (z : Z) :
  Py.int_digits acc b s = Some z -> no_space s = true.
Proof.
  revert acc b. induction s as [|c s IH]; intros acc b H; [reflexivity|].
  cbn in *. destruct (Py.is_digit c) eqn:Hd.
  - rewrite (digit_not_space c Hd). cbn. eapply IH, H.
  - destruct (Ascii.eqb c "_") eqn:Hu; [|discriminate].
    apply Ascii.eqb_eq in Hu. subst c. cbn.
    destruct b; [|discriminate]. eapply IH, H.
Qed.

Lemma int_unsigned_no_space (s : string) (z : Z) :
  Py.int_unsigned s = Some z -> no_space s = true.
Proof.
  unfold Py.int_unsigned. destruct s as [|c s]; [reflexivity|].
  destruct (Py.is_digit c); [|discriminate].
  destruct (Py.int_max_str_digits <? Py.digit_count (String c s))%Z; [discriminate|].
  apply int_digits_no_space.
Qed.

Lemma rstrip_blank_word (s : string) :
  Py.rstrip s = EmptyString -> take_word s = EmptyString.
Proof.
  destruct s as [|c s]; [reflexivity|]. cbn.
  destruct (Py.rstrip s); [|discriminate].
  destruct (Py.is_space c); [reflexivity | discriminate].
Qed.

Lemma take_word_rstrip (s : string) :
  no_space (Py.rstrip s) = true -> take_word s = Py.rstrip s.
Proof.
  induction s as [|c s IH]; [reflexivity|]. cbn.
  destruct (Py.rstrip s) as [|r rs] eqn:E.
  - destruct (Py.is_space c) eqn:Hc; [reflexivity|].
    intros _. now rewrite (rstrip_blank_word s E).
  - cbn [no_space]. intros H. apply andb_true_iff in H as [Hc Hr].
    apply negb_true_iff in Hc. rewrite Hc. f_equal. apply IH. exact Hr.
Qed.

Lemma strip_no_space (s : string) : no_space s = true -> Py.strip s = s.
Proof.
  intros H. unfold Py.strip.
  replace (Py.lstrip s) with s.
  - induction s as [|c s IH]; [reflexivity|]. cbn in *.
    apply andb_true_iff in H as [Hc Hs]. apply negb_true_iff in Hc.
    rewrite (IH Hs), Hc. destruct s; reflexivity.
  - destruct s as [|c s]; [reflexivity|]. cbn in *.
    apply andb_true_iff in H as [Hc _]. apply negb_true_iff in Hc. now rewrite Hc.
Qed.

(** A text [int] accepts is, white space apart, its own first token. *)
Lemma int_of_str_token (s : string) (z : Z) :
  Py.int_of_str s = Some z -> Py.int_of_str (leading_token s) = Some z.
Proof.
  intros H.
  assert (Hns : no_space (Py.strip s) = true).
  { unfold Py.int_of_str in H. destruct (Py.strip s) as [|c t]; [discriminate|].
    cbn [no_space]. destruct (Ascii.eqb c "-") eqn:Hm.
    - apply Ascii.eqb_eq in Hm. subst c. cbn.
      destruct (Py.int_unsigned t) eqn:Hu; [|discriminate].
      eapply int_unsigned_no_space, Hu.
    - destruct (Ascii.eqb c "+") eqn:Hp.
      + apply Ascii.eqb_eq in Hp. subst c. cbn. eapply int_unsigned_no_space, H.
      + apply int_unsigned_no_space in H. exact H. }
  unfold leading_token. unfold Py.strip in Hns.
  rewrite (take_word_rstrip _ Hns).
  change (Py.rstrip (Py.lstrip s)) with (Py.strip s) in *.
  unfold Py.int_of_str at 1. rewrite (strip_no_space _ Hns). exact H.
Qed.

(** ** The claims about [select] *)

(** C5. When the selector runs and writes nothing, [select] in hard mode
    ([check] set) prints "Nothing selected!", tries to send it as a desktop
    notification and ends the process with exit code 1; in soft mode it
    returns -1 and reports nothing. *)
Theorem select_empty_output items cmd indices check w argv :
  Py.shlex_split (selector_cmd cmd) = Some argv ->
  argv <> [] ->
  let input :=
    Some (Py.join newline
            (if prefixing cmd indices then index_items items else items)) in
  spawn w argv input = Completed EmptyString ->
  let w1 := w ++ [Spawned argv input (Completed EmptyString)] in
  let r := select spawn items cmd indices check w in
  (check = true ->
   fst (fst r) = SysExit 1 /\
   snd r = w1 ++ [Printed "Nothing selected!";
                  Spawned ["notify-send"; "Nothing selected!"] None
                    (spawn (w1 ++ [Printed "Nothing selected!"])
                       ["notify-send"; "Nothing selected!"] None)]) /\
  (check = false -> fst (fst r) = Ok (-1)%Z /\ snd r = w1).
Proof.
  intros Hsplit Hne input Hs w1 r. subst r.
  rewrite (select_completed items cmd indices check w argv EmptyString Hsplit Hne Hs).
  assert (E : (if prefixing cmd indices then Py.leading_digits EmptyString else EmptyString)
              = EmptyString) by (destruct (prefixing cmd indices); reflexivity).
  rewrite E. split; intros ->; cbn [fst snd].
  - split; reflexivity.
  - split; reflexivity.
Qed.

(** In [main] the selection of the file is a hard one: an empty answer ends
    the whole run with exit code 1. *)
Lemma main_exits_without_selection args w pdfs w1 argv :
  search_pdfs spawn
    (match base_directory args with Some b => b | None => home end)
    (search_cmd args) (hidden args) w = (Ok pdfs, w1) ->
  let cmd := merge_strings [selector args; pdf_selector_args args] in
  let pdf_items :=
    map (fun p => if full_path args then p else Py.strip_directories p) pdfs in
  Py.shlex_split (selector_cmd cmd) = Some argv ->
  argv <> [] ->
  spawn w1 argv
    (Some (Py.join newline
             (if prefixing cmd (selector_indices args)
              then index_items pdf_items else pdf_items)))
  = Completed EmptyString ->
  fst (main spawn pymupdf_open transform float_str home args w) = SysExit 1.
Proof.
  intros Hsearch cmd pdf_items Hsplit Hne Hs.
  unfold main. unfold bind at 1. rewrite Hsearch.
  unfold bind at 1. unfold select_ at 1. fold cmd. fold pdf_items.
  rewrite (select_completed pdf_items cmd (selector_indices args) true w1 argv
             EmptyString Hsplit Hne Hs).
  destruct (prefixing cmd (selector_indices args)); reflexivity.
Qed.

(** C3. With index prefixes on, [select] feeds the selector the items joined
    by newlines, item [i] behind the decimal [i] and a TAB, and takes the
    leading run of digits of the selector's output as the chosen index,
    whatever follows the run: the value of the run is returned (for a run
    within the interpreter's limit of 4300 digits); an answer that starts
    with line [i] as it was sent selects [i]; and for the items a, b, c the
    answers "1<TAB>b" and "1" both give index 1, the index of b. *)
Theorem select_index_prefix_roundtrip items cmd indices check w argv out :
  prefixing cmd indices = true ->
  Py.shlex_split (selector_cmd cmd) = Some argv ->
  argv <> [] ->
  let sent := Py.join newline (number_from 0 items) in
  spawn w argv (Some sent) = Completed out ->
  let r := select spawn items cmd indices check w in
  (exists after, snd r = w ++ Spawned argv (Some sent) (Completed out) :: after) /\
  (forall ds rest,
      out = (ds ++ rest)%string -> ds <> EmptyString ->
      all_digits ds = true -> no_digit_ahead rest = true ->
      (Z.of_nat (String.length ds) <= Py.int_max_str_digits)%Z ->
      fst (fst r) = Ok (digits_value 0 ds)) /\
  (forall i item tail,
      nth_error items i = Some item ->
      out = (Py.str_int (Z.of_nat i) ++ String Py.tab (item ++ tail))%string ->
      (Z.of_nat (String.length (Py.str_int (Z.of_nat i))) <= Py.int_max_str_digits)%Z ->
      fst (fst r) = Ok (Z.of_nat i) /\ Py.getitem items (Z.of_nat i) = Some item) /\
  (items = ["a"; "b"; "c"] ->
   sent = ("0" ++ String Py.tab "a" ++ newline ++
           "1" ++ String Py.tab "b" ++ newline ++
           "2" ++ String Py.tab "c")%string /\
   (out = ("1" ++ String Py.tab "b")%string \/ out = "1" ->
    fst (fst r) = Ok 1%Z /\ Py.getitem items 1 = Some "b")).
Proof.
  intros Hon Hsplit Hne sent Hs r.
  pose proof (select_completed items cmd indices check w argv out Hsplit Hne) as Hc.
  cbv zeta in Hc. rewrite Hon, index_items_number in Hc.
  specialize (Hc Hs). fold sent in Hc. fold r in Hc.
  assert (Hsel : forall ds rest,
             out = (ds ++ rest)%string -> ds <> EmptyString ->
             all_digits ds = true -> no_digit_ahead rest = true ->
             (Z.of_nat (String.length ds) <= Py.int_max_str_digits)%Z ->
             fst (fst r) = Ok (digits_value 0 ds)).
  { intros ds rest Hout Hds Hall Hrest Hlen.
    rewrite Hc, Hout, (leading_digits_app ds rest Hall Hrest).
    pose proof (int_of_digits ds Hall Hds Hlen) as Hint.
    destruct ds as [|c ds]; [congruence|].
    rewrite Hint. reflexivity. }
  split; [|split; [exact Hsel|split]].
  - rewrite Hc.
    destruct (Py.leading_digits out); [destruct check|]; cbn [snd].
    + rewrite <- app_assoc. eexists. reflexivity.
    + exists []. reflexivity.
    + exists []. reflexivity.
  - intros i item tail Hi Hout Hlen.
    destruct (str_nat_digits i) as (Hall & Hds & Hval).
    split.
    + rewrite <- Hval. apply (Hsel _ (String Py.tab (item ++ tail))); auto.
    + unfold Py.getitem.
      destruct (0 <=? Z.of_nat i)%Z eqn:E; [|apply Z.leb_gt in E; lia].
      now rewrite Nat2Z.id.
  - intros Hitems. split; [subst sent; rewrite Hitems; reflexivity|].
    assert (Hone : (Z.of_nat (String.length "1") <= Py.int_max_str_digits)%Z)
      by (unfold Py.int_max_str_digits; cbn; lia).
    intros [Hout | Hout].
    + split; [|rewrite Hitems; reflexivity].
      apply (Hsel "1" (String Py.tab "b"));
        [exact Hout | discriminate | reflexivity | reflexivity | exact Hone].
    + split; [|rewrite Hitems; reflexivity].
      apply (Hsel "1" EmptyString);
        [exact Hout | discriminate | reflexivity | reflexivity | exact Hone].
Qed.

(** C8 as amended. Without index prefixes the selector's whole output goes
    to [int]: when that output is not empty and its leading token is not an
    integer, [int] raises [ValueError] and [select] lets it pass.  With
    index prefixes an output that does not start with a digit has an empty
    digit run and is treated as no selection: exit code 1 in hard mode, -1
    in soft mode. *)
Theorem select_malformed_output items cmd indices check w argv out :
  Py.shlex_split (selector_cmd cmd) = Some argv ->
  argv <> [] ->
  let input :=
    Some (Py.join newline
            (if prefixing cmd indices then index_items items else items)) in
  spawn w argv input = Completed out ->
  let r := select spawn items cmd indices check w in
  (prefixing cmd indices = false ->
   out <> EmptyString -> Py.int_of_str (leading_token out) = None ->
   fst (fst r) = Raised ValueError) /\
  (prefixing cmd indices = true ->
   no_digit_ahead out = true ->
   fst (fst r) = if check then SysExit 1 else Ok (-1)%Z).
Proof.
  intros Hsplit Hne input Hs r. subst r.
  rewrite (select_completed items cmd indices check w argv out Hsplit Hne Hs).
  split.
  - intros -> Hout Htok.
    destruct out as [|c out]; [congruence|].
    destruct (Py.int_of_str (String c out)) as [z|] eqn:E; [|reflexivity].
    apply int_of_str_token in E. congruence.
  - intros -> Hout.
    replace (Py.leading_digits out) with EmptyString.
    + destruct check; reflexivity.
    + destruct out as [|c out]; [reflexivity|]. cbn in *.
      now destruct (Py.is_digit c).
Qed.

(** ** [search_pdfs] *)

(** Without a search command, when neither [fd] nor [find] can be started,
    the second [FileNotFoundError] leaves [search_pdfs]: nothing is printed
    and no notification is tried. *)
Lemma search_pdfs_no_tool base (hid : bool) w :
  let fd := ["fd"; "-I"; "-t"; "f"; "-e"; "pdf"; "-a"; "."; base]
            ++ (if hid then ["-H"] else []) in
  let find := ["find"; base; "-type"; "f"; "-name"; "*.pdf"] in
  spawn w fd None = NotFound ->
  spawn (w ++ [Spawned fd None NotFound]) find None = NotFound ->
  search_pdfs spawn base None hid w
  = (Raised FileNotFoundError,
     w ++ [Spawned fd None NotFound; Spawned find None NotFound]).
Proof.
  intros fd find Hfd Hfind. subst fd find.
  unfold search_pdfs, except_not_found, bind.
  destruct hid; cbn [app] in *; unfold subprocess_run;
    rewrite Hfd, Hfind, <- app_assoc; reflexivity.
Qed.

(** ** [get_toc] *)

Lemma get_toc_items_points doc flag ts toc :
  get_toc_items transform doc flag ts = Ok toc ->
  Forall has_point toc /\
  length toc = length ts /\
  get_toc_items transform doc flag (map with_zero_point ts) = Ok toc /\
  (forall i t,
      nth_error ts i = Some t -> dest_to (t3_dest t) = None ->
      exists page,
        load_page doc (t0_lvl t) = Some page /\
        nth_error toc i
        = Some (mkToc (t0_lvl t) (t1_title t) (t2_page t)
                  (mkDest (dest_kind (t3_dest t))
                     (Some (if flag
                            then transform Point0 (transformation_matrix page)
                            else Point0))))).
Proof.
  revert toc. induction ts as [|t ts IH]; intros toc H; cbn in H.
  - injection H as <-. repeat split; auto.
    intros [|i] t; discriminate.
  - destruct (load_page doc (t0_lvl t)) as [page|] eqn:Hpage; [|discriminate].
    destruct (get_toc_items transform doc flag ts) as [toc'| |] eqn:Hrest;
      try discriminate.
    injection H as <-.
    destruct (IH toc' eq_refl) as (Hall & Hlen & Hzero & Hnth).
    split; [|split; [|split]].
    + constructor; [cbn; discriminate | exact Hall].
    + cbn. now rewrite Hlen.
    + cbn [map get_toc_items].
      assert (El : t0_lvl (with_zero_point t) = t0_lvl t)
        by (unfold with_zero_point; destruct (dest_to (t3_dest t)); reflexivity).
      rewrite El, Hpage, Hzero.
      unfold with_zero_point. destruct (dest_to (t3_dest t)) eqn:Hto.
      * rewrite Hto. reflexivity.
      * reflexivity.
    + intros [|i] t' Hi Hto; cbn in Hi.
      * injection Hi as <-. exists page. split; [exact Hpage|].
        cbn. rewrite Hto. reflexivity.
      * cbn. apply (Hnth i t' Hi Hto).
Qed.

(** Every item is looked up, and with the flag set transformed, by the page
    whose number is the item's level. *)
Lemma get_toc_items_level_page doc flag ts toc :
  get_toc_items transform doc flag ts = Ok toc ->
  Forall2
    (fun t t' =>
       exists page,
         load_page doc (t0_lvl t) = Some page /\
         let p := match dest_to (t3_dest t) with Some p => p | None => Point0 end in
         t' = mkToc (t0_lvl t) (t1_title t) (t2_page t)
                (mkDest (dest_kind (t3_dest t))
                   (Some (if flag
                          then transform p (transformation_matrix page)
                          else p))))
    ts toc.
Proof.
  revert toc. induction ts as [|t ts IH]; intros toc H; cbn in H.
  - injection H as <-. constructor.
  - destruct (load_page doc (t0_lvl t)) as [page|] eqn:Hpage; [|discriminate].
    destruct (get_toc_items transform doc flag ts) as [toc'| |]; try discriminate.
    injection H as <-. constructor; [|now apply IH].
    exists page. split; [exact Hpage | reflexivity].
Qed.

(** [get_toc_items] returns whenever every level is the number of a page. *)
Lemma get_toc_items_returns doc flag ts :
  Forall (fun t => (t0_lvl t < length (doc_pages doc))%nat) ts ->
  exists toc, get_toc_items transform doc flag ts = Ok toc.
Proof.
  induction 1 as [|t ts Ht _ [toc IH]]; cbn.
  - eauto.
  - unfold load_page.
    destruct (nth_error (doc_pages doc) (t0_lvl t)) eqn:E.
    + rewrite IH. eauto.
    + apply nth_error_None in E. lia.
Qed.

(** C7. Every item of the list [get_toc] returns has a point under ["to"]:
    for an item of the document that has none, [get_toc] puts the zero point
    (0, 0) in its place, so the returned list is the one the document with
    the zero points filled in gives; the new item carries the zero point
    itself, or, when the coordinate flag is set, what the transformation
    makes of it. *)
Theorem get_toc_defines_points path flag w toc w' :
  get_toc pymupdf_open transform path flag w = (Ok toc, w') ->
  exists doc,
    pymupdf_open path = Some doc /\
    Forall has_point toc /\
    length toc = length (doc_toc doc) /\
    get_toc_items transform doc flag (map with_zero_point (doc_toc doc)) = Ok toc /\
    (forall i t,
        nth_error (doc_toc doc) i = Some t -> dest_to (t3_dest t) = None ->
        exists page,
          load_page doc (t0_lvl t) = Some page /\
          nth_error toc i
          = Some (mkToc (t0_lvl t) (t1_title t) (t2_page t)
                    (mkDest (dest_kind (t3_dest t))
                       (Some (if flag
                              then transform Point0 (transformation_matrix page)
                              else Point0))))).
Proof.
  unfold get_toc, bind, or_raise. intros H.
  destruct (pymupdf_open path) as [doc|]; [|discriminate].
  cbn in H. injection H as H _. exists doc. split; [reflexivity|].
  now apply get_toc_items_points.
Qed.

(** ** [open_pdf] and [main] *)

Lemma try_running_viewer cmd argv w :
  argv <> [] ->
  (try_running_subprocess spawn argv ("PDF viewer (" ++ cmd ++ ") not found!") None ;;;
   ret tt)%run w
  = viewer_outcome spawn cmd argv w.
Proof.
  intros Hne. unfold bind, viewer_outcome.
  destruct (spawn w argv None) as [out|] eqn:Hs.
  - rewrite (try_running_completed _ _ _ _ _ Hne Hs). reflexivity.
  - rewrite (try_running_not_found _ _ _ _ Hne Hs). reflexivity.
Qed.

Lemma app_path_nonempty (argv : list string) (path : string) (extra : list string) :
  argv ++ [path] ++ extra <> [].
Proof. destruct argv; discriminate. Qed.

Lemma open_pdf_plain path cmd pa w argv :
  Py.shlex_split (viewer_cmd cmd) = Some argv ->
  open_pdf spawn float_str path cmd pa None w
  = viewer_outcome spawn (viewer_cmd cmd) (argv ++ [path]) w.
Proof.
  intros Hsplit. unfold open_pdf.
  replace (match cmd with Some c => c | None => "zathura" end)
    with (viewer_cmd cmd) by reflexivity.
  unfold bind at 1. rewrite Hsplit. cbn [or_raise ret].
  apply try_running_viewer, (app_path_nonempty argv path []).
Qed.

Lemma open_pdf_at path cmd pa pos w argv extra :
  Py.shlex_split cmd = Some argv ->
  Py.shlex_split
    (match pa with
     | None | Some EmptyString => EmptyString
     | Some t => substitute float_str t pos
     end) = Some extra ->
  open_pdf spawn float_str path (Some cmd) pa (Some pos) w
  = viewer_outcome spawn cmd (argv ++ [path] ++ extra) w.
Proof.
  intros Hcmd Hextra. unfold open_pdf.
  unfold bind at 1. rewrite Hcmd. cbn [or_raise ret].
  unfold bind at 1. rewrite Hextra. cbn [or_raise ret].
  apply try_running_viewer, app_path_nonempty.
Qed.

Lemma get_toc_trace path flag w r w' :
  get_toc pymupdf_open transform path flag w = (r, w') -> w' = w.
Proof.
  unfold get_toc, bind, or_raise, ret, raise.
  destruct (pymupdf_open path); intros H; injection H; auto.
Qed.

(** C4 as amended. Once a file is chosen and [get_toc] has returned its TOC,
    [main] starts the viewer with the words of the viewer command followed
    by the file path and nothing else when the TOC is empty, when the
    no-TOC flag is set, and when the soft TOC selection comes back negative
    (-1 for a cancelled dialogue); the template given on the command line
    plays no part, and no position, (0, 0, 0) or other, is passed. *)
Theorem main_opens_plain args w pdfs w1 i items1 w2 path toc w3 argv :
  search_pdfs spawn
    (match base_directory args with Some b => b | None => home end)
    (search_cmd args) (hidden args) w = (Ok pdfs, w1) ->
  select spawn
    (map (fun p => if full_path args then p else Py.strip_directories p) pdfs)
    (merge_strings [selector args; pdf_selector_args args])
    (selector_indices args) true w1 = (Ok i, items1, w2) ->
  Py.getitem pdfs i = Some path ->
  get_toc pymupdf_open transform path (mupdf_coordinate_space args) w2 = (Ok toc, w3) ->
  Py.shlex_split (viewer_cmd (pdf_viewer args)) = Some argv ->
  let run := main spawn pymupdf_open transform float_str home args w in
  let cmd := viewer_cmd (pdf_viewer args) in
  (toc = [] \/ no_toc args = true ->
   run = viewer_outcome spawn cmd (argv ++ [path]) w3) /\
  (forall j items2 w4,
      toc <> [] -> no_toc args = false ->
      select spawn (map t1_title toc)
        (merge_strings [selector args; toc_selector_args args])
        (selector_indices args) false w3 = (Ok j, items2, w4) ->
      (j < 0)%Z ->
      run = viewer_outcome spawn cmd (argv ++ [path]) w4).
Proof.
  intros Hsearch Hsel Hget Htoc Hsplit run cmd.
  assert (Hrun : run =
    (if (length toc =? 0)%nat || no_toc args then
       open_pdf spawn float_str path (pdf_viewer args) None None
     else
       toc_index <- select_ spawn (map t1_title toc)
                      (merge_strings [selector args; toc_selector_args args])
                      (selector_indices args) false ;;
       if (0 <=? toc_index)%Z then
         t <- or_raise IndexError (Py.getitem toc toc_index) ;;
         toc_point <- or_raise KeyError (dest_to (t3_dest t)) ;;
         open_pdf spawn float_str path (pdf_viewer args) (pdf_viewer_args args)
           (Some (t2_page t, px toc_point, py toc_point))
       else
         open_pdf spawn float_str path (pdf_viewer args) None None)%run w3).
  { subst run. unfold main.
    unfold bind at 1. rewrite Hsearch.
    unfold bind at 1. unfold select_ at 1. rewrite Hsel.
    unfold bind at 1. rewrite Hget. cbn [or_raise ret].
    unfold bind at 1. rewrite Htoc. reflexivity. }
  split.
  - intros Hplain. rewrite Hrun.
    replace ((length toc =? 0)%nat || no_toc args) with true.
    + now apply open_pdf_plain.
    + destruct Hplain as [-> | ->]; [reflexivity | now rewrite orb_true_r].
  - intros j items2 w4 Hne Hno Hsel2 Hj. rewrite Hrun, Hno.
    destruct toc as [|t toc]; [congruence|]. cbn [length Nat.eqb orb].
    unfold bind at 1. unfold select_ at 1. rewrite Hsel2.
    replace (0 <=? j)%Z with false by (symmetry; apply Z.leb_gt; exact Hj).
    now apply open_pdf_plain.
Qed.

End Facts.

(* ================================================================== *)
(** * The claims on the scenarios *)
(* ================================================================== *)

(** ** The page a TOC entry is transformed with *)

(** C1. In a document of three pages of different heights, with two
    top-level bookmarks to page 1 and to page 3, [get_toc] with the
    coordinate flag set transforms both points with the matrix of the page
    numbered by their level, the second page: the two items come out with
    the same point, which is neither the first point under the matrix of
    page 1 nor the second under the matrix of page 3. *)
Theorem get_toc_transforms_by_level_page :
  let target := mkPoint 10 20 in
  let second_page := transformation_matrix (page_of_height 200) in
  get_toc_items affine three_pages true (doc_toc three_pages)
  = Ok [mkToc 1 "Intro" 1 (mkDest 1 (Some (affine target second_page)));
        mkToc 1 "End" 3 (mkDest 1 (Some (affine target second_page)))] /\
  affine target second_page = mkPoint 10 180 /\
  target_page_matrix three_pages intro_item
  = Some (transformation_matrix (page_of_height 100)) /\
  target_page_matrix three_pages end_item
  = Some (transformation_matrix (page_of_height 300)) /\
  affine target (transformation_matrix (page_of_height 100)) = mkPoint 10 80 /\
  affine target (transformation_matrix (page_of_height 300)) = mkPoint 10 280 /\
  mkPoint 10 180 <> mkPoint 10 80 /\
  mkPoint 10 180 <> mkPoint 10 280.
Proof.
  cbv zeta. repeat split; try (vm_compute; reflexivity).
  - intros H. apply (f_equal (fun p => PrimFloat.eqb (py p) 180)) in H.
    vm_compute in H. discriminate H.
  - intros H. apply (f_equal (fun p => PrimFloat.eqb (py p) 180)) in H.
    vm_compute in H. discriminate H.
Qed.

(** ** No search tool *)

(** C2. On a machine without executables, [search_pdfs] without a search
    command tries [fd], then [find], and ends with the [FileNotFoundError]
    of [find] uncaught: nothing printed, no notification tried, no exit
    code of the program's own.  With a search command the same machine
    gets the report and exit code 1. *)
Theorem search_pdfs_no_tool_uncaught :
  search_pdfs no_executables "/home/u" None false []
  = (Raised FileNotFoundError,
     [Spawned ["fd"; "-I"; "-t"; "f"; "-e"; "pdf"; "-a"; "."; "/home/u"] None NotFound;
      Spawned ["find"; "/home/u"; "-type"; "f"; "-name"; "*.pdf"] None NotFound]) /\
  search_pdfs no_executables "/home/u" (Some "locate .pdf") false []
  = (SysExit 1,
     [Spawned ["locate"; ".pdf"] None NotFound;
      Printed "Command not found!";
      Spawned ["notify-send"; "Command not found!"] None NotFound]).
Proof. split; vm_compute; reflexivity. Qed.

(** ** The selector *)

Lemma select_index_prefix_roundtrip_witness :
  prefixing None false = true /\
  fst (fst (select (answering ("1" ++ String Py.tab "b")) ["a"; "b"; "c"]
              None false true [])) = Ok 1%Z /\
  Py.getitem ["a"; "b"; "c"] 1 = Some "b".
Proof.
  split; [reflexivity|].
  refine (proj2 (proj2 (proj2 (proj2
    (select_index_prefix_roundtrip (answering ("1" ++ String Py.tab "b"))
       ["a"; "b"; "c"] None false true [] ["fzf"; "--with-nth"; "2.."]
       ("1" ++ String Py.tab "b") eq_refl eq_refl _ eq_refl))) eq_refl)
    (or_introl eq_refl)).
  discriminate.
Defined.

Lemma select_empty_output_witness :
  Py.shlex_split "rofi -dmenu" = Some ["rofi"; "-dmenu"] /\
  fst (fst (select (answering "") ["a"; "b"] (Some "rofi -dmenu") false true []))
  = SysExit 1 /\
  fst (fst (select (answering "") ["a"; "b"] (Some "rofi -dmenu") false false []))
  = Ok (-1)%Z.
Proof.
  split; [reflexivity|]. split.
  - refine (proj1 (proj1
      (select_empty_output (answering "") ["a"; "b"] (Some "rofi -dmenu")
         false true [] ["rofi"; "-dmenu"] eq_refl _ eq_refl) eq_refl)).
    discriminate.
  - refine (proj1 (proj2
      (select_empty_output (answering "") ["a"; "b"] (Some "rofi -dmenu")
         false false [] ["rofi"; "-dmenu"] eq_refl _ eq_refl) eq_refl)).
    discriminate.
Defined.

Lemma select_mutates_items_witness :
  (false = true \/ @None string = None) /\
  nth_error (snd (fst (select desk ["a"; "b"] None false true []))) 1
  = Some ("1" ++ String Py.tab "b")%string.
Proof.
  split; [right; reflexivity|].
  exact (proj1 (proj2
    (select_mutates_items desk ["a"; "b"] None false true [] (or_intror eq_refl))) 1).
Defined.

(** C8 fails as it stands: with index prefixes on, the answer "abc" has a
    leading token that is no integer, and yet nothing is raised: the soft
    mode returns -1 and the hard mode reports "Nothing selected!" and exits,
    exactly as for an empty answer. *)
Lemma select_malformed_is_handled :
  Py.int_of_str (leading_token "abc") = None /\
  select (answering "abc") ["a"; "b"] (Some "rofi -dmenu") true false []
  = (Ok (-1)%Z,
     [("0" ++ String Py.tab "a")%string; ("1" ++ String Py.tab "b")%string],
     [Spawned ["rofi"; "-dmenu"]
        (Some ("0" ++ String Py.tab "a" ++ newline ++ "1" ++ String Py.tab "b")%string)
        (Completed "abc")]) /\
  fst (fst (select (answering "abc") ["a"; "b"] (Some "rofi -dmenu") true true []))
  = SysExit 1 /\
  fst (fst (select (answering "abc") ["a"; "b"] (Some "rofi -dmenu") true false []))
  <> Raised ValueError.
Proof. repeat split; try (vm_compute; reflexivity). vm_compute. discriminate. Qed.

Lemma select_malformed_output_witness :
  Py.int_of_str (leading_token "abc") = None /\
  fst (fst (select (answering "abc") ["a"; "b"] (Some "rofi -dmenu -format i")
              false true [])) = Raised ValueError /\
  fst (fst (select (answering "abc") ["a"; "b"] (Some "rofi -dmenu")
              true false [])) = Ok (-1)%Z.
Proof.
  split; [reflexivity|]. split.
  - refine (proj1
      (select_malformed_output (answering "abc") ["a"; "b"]
         (Some "rofi -dmenu -format i") false true []
         ["rofi"; "-dmenu"; "-format"; "i"] "abc" eq_refl _ eq_refl)
      eq_refl _ eq_refl).
    + discriminate.
    + discriminate.
  - refine (proj2
      (select_malformed_output (answering "abc") ["a"; "b"]
         (Some "rofi -dmenu") true false [] ["rofi"; "-dmenu"] "abc" eq_refl _ eq_refl)
      eq_refl eq_refl).
    discriminate.
Defined.

(** ** The TOC *)

Lemma get_toc_defines_points_witness :
  get_toc library affine "/home/u/a.pdf" true []
  = (Ok [mkToc 1 "Intro" 1 (mkDest 1 (Some (mkPoint 10 180)));
         mkToc 1 "Homepage" (-1) (mkDest 2 (Some (mkPoint 0 200)))], []) /\
  Forall has_point
    [mkToc 1 "Intro" 1 (mkDest 1 (Some (mkPoint 10 180)));
     mkToc 1 "Homepage" (-1) (mkDest 2 (Some (mkPoint 0 200)))].
Proof.
  assert (H : get_toc library affine "/home/u/a.pdf" true []
              = (Ok [mkToc 1 "Intro" 1 (mkDest 1 (Some (mkPoint 10 180)));
                     mkToc 1 "Homepage" (-1) (mkDest 2 (Some (mkPoint 0 200)))], []))
    by (vm_compute; reflexivity).
  split; [exact H|].
  destruct (get_toc_defines_points library affine _ _ _ _ _ H) as (doc & _ & Hall & _).
  exact Hall.
Defined.

(** ** The viewer *)

(** C6 fails as it stands when no viewer command is given: the template and
    the position of the claim's example give the words -P 3 after the path,
    and so does the empty template. *)
Lemma open_pdf_template_ignored :
  open_pdf (answering "") short_float_str "/home/u/a.pdf" None
    (Some sioyek_template) (Some (3%Z, 10.5%float, 20.25%float)) []
  = (Ok tt, [Spawned ["zathura"; "/home/u/a.pdf"; "-P"; "3"] None (Completed "")]) /\
  open_pdf (answering "") short_float_str "/home/u/a.pdf" None
    (Some EmptyString) (Some (3%Z, 10.5%float, 20.25%float)) []
  = (Ok tt, [Spawned ["zathura"; "/home/u/a.pdf"; "-P"; "3"] None (Completed "")]) /\
  ["zathura"; "/home/u/a.pdf"; "-P"; "3"]
  <> ["zathura"; "/home/u/a.pdf"; "--page"; "3"; "--xloc"; "10.5"; "--yloc"; "20.25"] /\
  ["zathura"; "/home/u/a.pdf"; "-P"; "3"] <> ["zathura"; "/home/u/a.pdf"].
Proof. repeat split; try (vm_compute; reflexivity); discriminate. Qed.

Lemma main_opens_plain_witness :
  exists w4,
    main desk library affine short_float_str "/home/u"
      (with_viewer_args plain_args (Some sioyek_template)) []
    = viewer_outcome desk "zathura" ["zathura"; "/home/u/papers/b.pdf"] w4 /\
    viewer_outcome desk "zathura" ["zathura"; "/home/u/papers/b.pdf"] w4
    = (Ok tt, w4 ++ [Spawned ["zathura"; "/home/u/papers/b.pdf"] None (Completed "")]).
Proof.
  eexists. split.
  - refine (proj2
      (main_opens_plain desk library affine short_float_str "/home/u"
         (with_viewer_args plain_args (Some sioyek_template)) []
         _ _ _ _ _ _ _ _ ["zathura"]
         ltac:(vm_compute; reflexivity) ltac:(vm_compute; reflexivity)
         ltac:(vm_compute; reflexivity) ltac:(vm_compute; reflexivity)
         eq_refl) _ _ _ ltac:(discriminate) eq_refl
         ltac:(vm_compute; reflexivity) ltac:(reflexivity)).
  - reflexivity.
Defined.

(* ================================================================== *)
(** * Further properties of the program *)
(* ================================================================== *)

Section MoreFacts.

Variable spawn : trace -> list string -> option string -> spawn_outcome.
Variable pymupdf_open : string -> option Document.
Variable transform : Point -> Matrix -> Point.
Variable float_str : float -> string.
Variable home : string.

(** ** [merge_strings] *)

(** X1. [merge_strings] gives [None] exactly when every argument is [None];
    a [None] argument is skipped and the strings present are joined, in
    order, by single spaces.  So selector arguments given without a selector
    command become the command [select] runs, in the place of the default
    one. *)
Theorem merge_strings_skips_none :
  (forall strings,
      merge_strings strings = None <-> Forall (fun s => s = None) strings) /\
  (forall strings, merge_strings (None :: strings) = merge_strings strings) /\
  (forall a strings,
      merge_strings (Some a :: strings)
      = Some (match merge_strings strings with
              | None => a
              | Some rest => (a ++ " " ++ rest)%string
              end)) /\
  (forall a items indices check w,
      select spawn items (merge_strings [None; Some a]) indices check w
      = select spawn items (Some a) indices check w).
Proof.
  split; [|split; [|split]].
  - intros strings. unfold merge_strings. split.
    + induction strings as [|[a|] strings IH]; cbn; intros H.
      * constructor.
      * discriminate.
      * constructor; [reflexivity | apply IH, H].
    + induction 1 as [|s strings Hs _ IH]; [reflexivity|].
      subst s. exact IH.
  - reflexivity.
  - intros a strings. unfold merge_strings. cbn [flat_map app].
    destruct (flat_map _ strings) as [|x xs]; reflexivity.
  - reflexivity.
Qed.

(** ** [try_running_subprocess] *)

(** X2. [try_running_subprocess] never lets a [FileNotFoundError] out: a
    command that runs gives its output; a command whose executable is
    missing gets [not_found_error] printed, a notification tried, and the
    process ended with exit code 1; an empty argument vector raises
    [IndexError] before anything is started. *)
Theorem try_running_subprocess_outcomes argv msg input w :
  let r := try_running_subprocess spawn argv msg input w in
  fst r <> Raised FileNotFoundError /\
  (argv = [] -> r = (Raised IndexError, w)) /\
  (forall out,
      argv <> [] -> spawn w argv input = Completed out ->
      r = (Ok out, w ++ [Spawned argv input (Completed out)])) /\
  (argv <> [] -> spawn w argv input = NotFound ->
   exists notified,
     r = (SysExit 1,
          w ++ [Spawned argv input NotFound; Printed msg;
                Spawned ["notify-send"; msg] None notified])).
Proof.
  intros r. subst r. split; [|split; [|split]].
  - destruct argv as [|a argv]; [cbn; discriminate|].
    destruct (spawn w (a :: argv) input) as [out|] eqn:Hs.
    + rewrite (try_running_completed spawn (a :: argv) msg input w out); [|discriminate|exact Hs].
      cbn. discriminate.
    + rewrite (try_running_not_found spawn (a :: argv) msg input w); [|discriminate|exact Hs].
      cbn. discriminate.
  - intros ->. reflexivity.
  - intros out Hne Hs. now apply try_running_completed.
  - intros Hne Hs. eexists.
    rewrite (try_running_not_found spawn argv msg input w Hne Hs).
    unfold error_events. rewrite <- app_assoc. reflexivity.
Qed.

(** ** [search_pdfs] *)

(** X3. Without a search command: when [fd] runs, its lines are the result
    and [find] is not started; when [fd] is missing and [find] runs, the
    lines of [find] are the result, and the [find] command is the same
    whether hidden files were asked for or not. *)
Theorem search_pdfs_default_chain base (hid : bool) w out :
  (spawn w (fd_argv base hid) None = Completed out ->
   search_pdfs spawn base None hid w
   = (Ok (lines out), w ++ [Spawned (fd_argv base hid) None (Completed out)])) /\
  (spawn w (fd_argv base hid) None = NotFound ->
   spawn (w ++ [Spawned (fd_argv base hid) None NotFound]) (find_argv base) None
   = Completed out ->
   search_pdfs spawn base None hid w
   = (Ok (lines out),
      w ++ [Spawned (fd_argv base hid) None NotFound;
            Spawned (find_argv base) None (Completed out)])).
Proof.
  unfold fd_argv, find_argv. split.
  - intros Hfd. unfold search_pdfs, except_not_found, bind.
    destruct hid; cbn [app] in *; unfold subprocess_run; rewrite Hfd; reflexivity.
  - intros Hfd Hfind. unfold search_pdfs, except_not_found, bind.
    destruct hid; cbn [app] in *; unfold subprocess_run;
      rewrite Hfd, Hfind, <- app_assoc; reflexivity.
Qed.

(** X4. A search command replaces the default search altogether: the base
    directory and the hidden flag play no part; a command [shlex] cannot
    split raises [ValueError] before anything is started; a command that
    runs gives its lines; a command that is missing is reported as
    "Command not found!" and ends the process with exit code 1. *)
Theorem search_pdfs_custom_command base (hid : bool) cmd w :
  let r := search_pdfs spawn base (Some cmd) hid w in
  (forall base' hid', search_pdfs spawn base' (Some cmd) hid' w = r) /\
  (Py.shlex_split cmd = None -> r = (Raised ValueError, w)) /\
  (forall argv out,
      Py.shlex_split cmd = Some argv -> argv <> [] ->
      spawn w argv None = Completed out ->
      r = (Ok (lines out), w ++ [Spawned argv None (Completed out)])) /\
  (forall argv,
      Py.shlex_split cmd = Some argv -> argv <> [] ->
      spawn w argv None = NotFound ->
      exists notified,
        r = (SysExit 1,
             w ++ [Spawned argv None NotFound; Printed "Command not found!";
                   Spawned ["notify-send"; "Command not found!"] None notified])).
Proof.
  intros r. subst r. split; [|split; [|split]].
  - reflexivity.
  - intros H. unfold search_pdfs, bind. rewrite H. reflexivity.
  - intros argv out H Hne Hs. unfold search_pdfs. unfold bind at 1. rewrite H.
    cbn [or_raise ret]. unfold bind.
    rewrite (try_running_completed spawn argv _ None w out Hne Hs). reflexivity.
  - intros argv H Hne Hs. unfold search_pdfs. unfold bind at 1. rewrite H.
    cbn [or_raise ret]. unfold bind.
    rewrite (try_running_not_found spawn argv _ None w Hne Hs).
    unfold error_events. rewrite <- app_assoc. eexists. reflexivity.
Qed.

(** ** Lines and base names *)

Lemma string_app_assoc (a b c : string) : ((a ++ b) ++ c = a ++ (b ++ c))%string.
Proof. induction a as [|x a IH]; cbn; [reflexivity | now rewrite IH]. Qed.

Lemma string_app_empty (a : string) : (a ++ EmptyString)%string = a.
Proof. induction a as [|x a IH]; cbn; [reflexivity | now rewrite IH]. Qed.

Lemma no_char_app (c : ascii) (a b : string) :
  no_char c (a ++ b) = no_char c a && no_char c b.
Proof.
  induction a as [|x a IH]; cbn; [reflexivity|].
  rewrite IH. now rewrite andb_assoc.
Qed.

Lemma split_nonempty (sep : ascii) (s : string) : Py.split sep s <> [].
Proof.
  destruct s as [|c s]; cbn; [discriminate|].
  destruct (Ascii.eqb c sep); [discriminate|].
  destruct (Py.split sep s); discriminate.
Qed.

Lemma split_no_sep (sep : ascii) (s : string) :
  no_char sep s = true -> Py.split sep s = [s].
Proof.
  induction s as [|c s IH]; cbn; [reflexivity|].
  intros H. apply andb_true_iff in H as [Hc Hs]. apply negb_true_iff in Hc.
  rewrite Hc, (IH Hs). reflexivity.
Qed.

Lemma split_app_sep (sep : ascii) (p rest : string) :
  no_char sep p = true ->
  Py.split sep (p ++ String sep rest) = p :: Py.split sep rest.
Proof.
  induction p as [|c p IH]; cbn.
  - intros _. now rewrite Ascii.eqb_refl.
  - intros H. apply andb_true_iff in H as [Hc Hp]. apply negb_true_iff in Hc.
    rewrite Hc, (IH Hp). reflexivity.
Qed.

(** X5. The lines [search_pdfs] reads off a tool's output are the paths the
    tool wrote, one per line, each ended by a newline; whatever follows the
    last newline is dropped, so a last path without its newline is lost and
    an empty output gives no path. *)
Theorem lines_unlines (paths : list string) (tail : string) :
  Forall (fun p => no_char Py.nl p = true) paths ->
  no_char Py.nl tail = true ->
  lines (unlines paths ++ tail) = paths.
Proof.
  intros Hpaths Htail. unfold lines, Py.drop_last.
  induction Hpaths as [|p paths Hp _ IH]; cbn [unlines].
  - cbn. now rewrite (split_no_sep Py.nl tail Htail).
  - unfold newline. rewrite !string_app_assoc. cbn [String.append].
    rewrite (split_app_sep Py.nl p _ Hp).
    change (p :: Py.split Py.nl (unlines paths ++ tail))
      with ([p] ++ Py.split Py.nl (unlines paths ++ tail)).
    rewrite removelast_app by apply split_nonempty.
    rewrite IH. reflexivity.
Qed.

Lemma last_split_after_sep (sep : ascii) (d n : string) :
  no_char sep n = true ->
  exists pre, pre <> [] /\ Py.split sep (d ++ String sep n) = pre ++ [n].
Proof.
  intros Hn. induction d as [|c d (pre & Hpre & IH)]; cbn.
  - rewrite Ascii.eqb_refl, (split_no_sep sep n Hn).
    exists [EmptyString]. split; [discriminate | reflexivity].
  - rewrite IH. destruct (Ascii.eqb c sep).
    + exists (EmptyString :: pre). split; [discriminate | reflexivity].
    + destruct pre as [|h pre]; [congruence|].
      exists (String c h :: pre). split; [discriminate | reflexivity].
Qed.

(** X6. The name [main] shows for a path when full paths are off is what
    follows the path's last slash: a directory part, however deep, is cut
    off with its slash, and a path without slash is shown as it is. *)
Theorem strip_directories_basename (dir name : string) :
  no_char Py.nl dir = true ->
  no_char Py.nl name = true ->
  no_char "/" name = true ->
  Py.strip_directories (dir ++ String "/" name) = name /\
  Py.strip_directories name = name.
Proof.
  intros Hdir Hnl Hname. unfold Py.strip_directories. split.
  - rewrite split_no_sep.
    + cbn [map Py.join String.concat]. unfold Py.after_last_slash.
      destruct (last_split_after_sep "/" dir name Hname) as (pre & _ & ->).
      apply last_last.
    + rewrite no_char_app, Hdir. cbn. now rewrite Hnl.
  - rewrite (split_no_sep Py.nl name Hnl).
    cbn [map Py.join String.concat]. unfold Py.after_last_slash.
    now rewrite (split_no_sep "/" name Hname).
Qed.

(** ** [select] without index prefixes, and when things go wrong *)

Lemma rstrip_digits_newline (ds : string) :
  all_digits ds = true -> ds <> EmptyString ->
  Py.rstrip (ds ++ newline) = ds.
Proof.
  induction ds as [|c ds IH]; [congruence|]. intros H _.
  cbn in H. apply andb_true_iff in H as [Hc Hds].
  cbn [String.append Py.rstrip].
  destruct ds as [|c' ds].
  - cbn. now rewrite (digit_not_space c Hc).
  - rewrite (IH Hds) by discriminate. reflexivity.
Qed.

Lemma int_of_digits_newline (ds : string) :
  all_digits ds = true -> ds <> EmptyString ->
  (Z.of_nat (String.length ds) <= Py.int_max_str_digits)%Z ->
  Py.int_of_str (ds ++ newline) = Some (digits_value 0 ds).
Proof.
  intros H Hne Hlen.
  assert (E : Py.strip (ds ++ newline) = ds).
  { unfold Py.strip. replace (Py.lstrip (ds ++ newline)) with (ds ++ newline)%string.
    - now apply rstrip_digits_newline.
    - destruct ds as [|c ds]; [congruence|]. cbn in *.
      apply andb_true_iff in H as [Hc _]. now rewrite (digit_not_space c Hc). }
  pose proof (int_of_digits ds H Hne Hlen) as Hint.
  unfold Py.int_of_str in *. rewrite E. rewrite (strip_digits ds H) in Hint.
  exact Hint.
Qed.

(** X7. Without index prefixes [select] sends the items as they are, joined
    by newlines, leaves the caller's list as it was, and takes the
    selector's answer as the index: the decimal index [i] (of no more
    digits than the interpreter's limit of 4300), with or without a newline
    after it, gives [i]. *)
Theorem select_bare_index items cmd check w argv i out :
  Py.shlex_split cmd = Some argv ->
  argv <> [] ->
  (Z.of_nat (String.length (Py.str_int (Z.of_nat i))) <= Py.int_max_str_digits)%Z ->
  out = Py.str_int (Z.of_nat i) \/ out = (Py.str_int (Z.of_nat i) ++ newline)%string ->
  spawn w argv (Some (Py.join newline items)) = Completed out ->
  select spawn items (Some cmd) false check w
  = (Ok (Z.of_nat i), items,
     w ++ [Spawned argv (Some (Py.join newline items)) (Completed out)]).
Proof.
  intros Hsplit Hne Hlen Hout Hs.
  rewrite (select_completed spawn items (Some cmd) false check w argv out Hsplit Hne Hs).
  cbn [prefixing].
  destruct (str_nat_digits i) as (Hall & Hds & Hval).
  assert (Hint : Py.int_of_str out = Some (Z.of_nat i)).
  { rewrite <- Hval. destruct Hout as [-> | ->].
    - now apply int_of_digits.
    - now apply int_of_digits_newline. }
  assert (Hout' : out <> EmptyString).
  { destruct Hout as [-> | ->]; [exact Hds|].
    destruct (Py.str_int (Z.of_nat i)); [congruence | discriminate]. }
  destruct out as [|c out]; [congruence|]. rewrite Hint. reflexivity.
Qed.

(** X8. When the selector's executable is missing, [select] prints
    "Selector (<command>) not found!", tries to notify, and ends the process
    with exit code 1; the caller's list has its index prefixes by then, if
    they are on. *)
Theorem select_selector_not_found items cmd indices check w argv :
  Py.shlex_split (selector_cmd cmd) = Some argv ->
  argv <> [] ->
  let items' := if prefixing cmd indices then index_items items else items in
  let input := Some (Py.join newline items') in
  spawn w argv input = NotFound ->
  let msg := ("Selector (" ++ selector_cmd cmd ++ ") not found!")%string in
  exists notified,
    select spawn items cmd indices check w
    = (SysExit 1, items',
       w ++ [Spawned argv input NotFound; Printed msg;
             Spawned ["notify-send"; msg] None notified]).
Proof.
  intros Hsplit Hne items' input Hs msg.
  unfold select.
  replace (match cmd with Some _ => indices | None => true end)
    with (prefixing cmd indices) by reflexivity.
  replace (match cmd with Some c => c | None => "fzf --with-nth 2.." end)
    with (selector_cmd cmd) by reflexivity.
  fold items'. unfold bind at 1. rewrite Hsplit. cbn [or_raise ret].
  unfold bind at 1. fold newline. fold input. fold msg.
  rewrite (try_running_not_found spawn argv msg input w Hne Hs).
  unfold error_events. rewrite <- app_assoc. eexists. reflexivity.
Qed.

(** X9. A command or a template that [shlex] cannot split (an open
    quotation, a backslash at the end) raises [ValueError] in [select] and
    in [open_pdf] before any process is started. *)
Theorem unsplittable_command_raises w :
  (forall items cmd indices check,
      Py.shlex_split (selector_cmd cmd) = None ->
      select spawn items cmd indices check w
      = (Raised ValueError,
         if prefixing cmd indices then index_items items else items, w)) /\
  (forall path cmd pa pos,
      Py.shlex_split (viewer_cmd cmd) = None ->
      open_pdf spawn float_str path cmd pa pos w = (Raised ValueError, w)) /\
  (forall path cmd template pos argv,
      Py.shlex_split cmd = Some argv ->
      template <> EmptyString ->
      Py.shlex_split (substitute float_str template pos) = None ->
      open_pdf spawn float_str path (Some cmd) (Some template) (Some pos) w
      = (Raised ValueError, w)).
Proof.
  split; [|split].
  - intros items cmd indices check H. unfold select.
    replace (match cmd with Some c => c | None => "fzf --with-nth 2.." end)
      with (selector_cmd cmd) by reflexivity.
    unfold bind at 1. rewrite H. destruct cmd; reflexivity.
  - intros path cmd pa pos H. unfold open_pdf.
    replace (match cmd with Some c => c | None => "zathura" end)
      with (viewer_cmd cmd) by reflexivity.
    destruct pos; unfold bind at 1; rewrite H; reflexivity.
  - intros path cmd template pos argv Hcmd Hne H. unfold open_pdf.
    unfold bind at 1. rewrite Hcmd. cbn [or_raise ret].
    destruct template; [congruence|].
    unfold bind at 1. rewrite H. reflexivity.
Qed.

(** ** [get_toc] and the pages *)

Lemma get_toc_items_bad_level doc flag ts :
  Exists (fun t => (length (doc_pages doc) <= t0_lvl t)%nat) ts ->
  get_toc_items transform doc flag ts = Raised ValueError.
Proof.
  induction ts as [|t ts IH]; intros H; [inversion H|]. cbn.
  unfold load_page. destruct (nth_error (doc_pages doc) (t0_lvl t)) eqn:E.
  - inversion H as [? ? Hbad | ? ? Hrest]; subst.
    + assert (nth_error (doc_pages doc) (t0_lvl t) = None)
        by (apply nth_error_None; exact Hbad).
      congruence.
    + now rewrite (IH Hrest).
  - reflexivity.
Qed.

(** X10. Once PyMuPDF has opened the file, [get_toc] returns exactly when
    every TOC level is below the number of pages: it loads the page numbered
    by the level of each item, flag or no flag, and one level too high
    raises [ValueError].  A one-page document with a TOC (levels count from
    1) therefore always raises. *)
Theorem get_toc_needs_level_pages path flag w doc :
  pymupdf_open path = Some doc ->
  let r := get_toc pymupdf_open transform path flag w in
  (Forall (fun t => (t0_lvl t < length (doc_pages doc))%nat) (doc_toc doc) ->
   exists toc, r = (Ok toc, w)) /\
  (Exists (fun t => (length (doc_pages doc) <= t0_lvl t)%nat) (doc_toc doc) ->
   r = (Raised ValueError, w)) /\
  (length (doc_pages doc) = 1%nat -> doc_toc doc <> [] ->
   Forall (fun t => (1 <= t0_lvl t)%nat) (doc_toc doc) ->
   r = (Raised ValueError, w)).
Proof.
  intros Hopen r.
  assert (Hr : r = (get_toc_items transform doc flag (doc_toc doc), w)).
  { subst r. unfold get_toc, bind. rewrite Hopen. reflexivity. }
  rewrite Hr. split; [|split].
  - intros Hall.
    destruct (get_toc_items_returns transform doc flag _ Hall) as [toc ->]. eauto.
  - intros Hbad. now rewrite (get_toc_items_bad_level doc flag _ Hbad).
  - intros Hone Hne Hlvl. rewrite (get_toc_items_bad_level doc flag); [reflexivity|].
    destruct (doc_toc doc) as [|t ts]; [congruence|].
    apply Exists_cons_hd. inversion Hlvl; subst. lia.
Qed.

(** X11. [get_toc] keeps the order, the levels, the titles, the page numbers
    and the other destination keys of the document's TOC; without the
    coordinate flag it returns the TOC as PyMuPDF gave it, the zero point
    put in for every missing one and no point changed. *)
Theorem get_toc_keeps_entries path flag w toc w' :
  get_toc pymupdf_open transform path flag w = (Ok toc, w') ->
  exists doc,
    pymupdf_open path = Some doc /\ w' = w /\
    map t0_lvl toc = map t0_lvl (doc_toc doc) /\
    map t1_title toc = map t1_title (doc_toc doc) /\
    map t2_page toc = map t2_page (doc_toc doc) /\
    map (fun t => dest_kind (t3_dest t)) toc
    = map (fun t => dest_kind (t3_dest t)) (doc_toc doc) /\
    (flag = false -> toc = map with_zero_point (doc_toc doc)).
Proof.
  unfold get_toc, bind, or_raise. intros H.
  destruct (pymupdf_open path) as [doc|]; [|discriminate].
  cbn in H. injection H as H <-. exists doc.
  split; [reflexivity|]. split; [reflexivity|].
  apply get_toc_items_level_page in H.
  induction H as [|t t' ts toc' (page & _ & Ht') _ IH]; cbn [map].
  - repeat split.
  - destruct IH as (H0 & H1 & H2 & H3 & H4).
    cbv zeta in Ht'. subst t'. cbn [t0_lvl t1_title t2_page t3_dest dest_kind].
    rewrite H0, H1, H2, H3. repeat split.
    intros ->. rewrite (H4 eq_refl). f_equal.
    unfold with_zero_point. destruct t as [l ti pg [k [p|]]]; reflexivity.
Qed.

(** ** Templates and the viewer's arguments *)

Lemma prefix_other_head (c : ascii) (pat s : string) (x : ascii) :
  Ascii.eqb x c = false -> String.prefix (String c pat) (String x s) = false.
Proof.
  intros H. cbn. destruct (ascii_dec c x) as [->|_]; [|reflexivity].
  now rewrite Ascii.eqb_refl in H.
Qed.

Lemma replace_without_head (c : ascii) (pat repl s : string) :
  no_char c s = true -> Py.replace (String c pat) repl s = s.
Proof.
  unfold Py.replace. induction s as [|x s IH]; [reflexivity|].
  cbn [no_char Py.replace_from]. intros H.
  apply andb_true_iff in H as [Hx Hs]. apply negb_true_iff in Hx.
  rewrite (prefix_other_head c pat s x Hx), (IH Hs). reflexivity.
Qed.

Lemma plain_no_dollar (s : string) : plain s = true -> no_char "$" s = true.
Proof.
  induction s as [|c s IH]; [reflexivity|]. cbn. unfold plain_char.
  intros H. apply andb_true_iff in H as [Hc Hs].
  apply andb_true_iff in Hc as [_ Hd]. rewrite Hd. cbn. exact (IH Hs).
Qed.

Lemma lex_plain (s tok : string) (toks : list string) :
  plain s = true ->
  Py.lex Py.InWord tok toks s = Some (toks ++ [(tok ++ s)%string]).
Proof.
  revert tok. induction s as [|c s IH]; intros tok H.
  - cbn. now rewrite string_app_empty.
  - cbn in H. apply andb_true_iff in H as [Hc Hs]. unfold plain_char in Hc.
    apply andb_true_iff in Hc as [Hc _].
    apply andb_true_iff in Hc as [Hc He].
    apply andb_true_iff in Hc as [Hw Hq].
    apply negb_true_iff in Hw, Hq, He.
    cbn [Py.lex]. rewrite Hw, Hq, He, (IH _ Hs).
    unfold Py.snoc. now rewrite string_app_assoc.
Qed.

Lemma lex_plain_word (s : string) (toks : list string) :
  plain s = true -> s <> EmptyString ->
  Py.lex Py.Between EmptyString toks s = Some (toks ++ [s]).
Proof.
  intros H Hne. destruct s as [|c s]; [congruence|].
  cbn in H. apply andb_true_iff in H as [Hc Hs].
  pose proof Hc as Hc'. unfold plain_char in Hc'.
  apply andb_true_iff in Hc' as [Hc' _].
  apply andb_true_iff in Hc' as [Hc' He].
  apply andb_true_iff in Hc' as [Hw Hq].
  apply negb_true_iff in Hw, Hq, He.
  cbn [Py.lex]. rewrite Hw, Hq, He. now rewrite (lex_plain s _ toks Hs).
Qed.

Lemma digit_plain (c : ascii) : Py.is_digit c = true -> plain_char c = true.
Proof.
  intros H. unfold plain_char, Py.is_shlex_space, Py.is_quote, Py.is_escape.
  repeat match goal with
         | |- context [Ascii.eqb c ?x] =>
             replace (Ascii.eqb c x) with false
               by (symmetry; apply Ascii.eqb_neq; intros ->; discriminate H)
         end.
  reflexivity.
Qed.

Lemma digits_plain (ds : string) : all_digits ds = true -> plain ds = true.
Proof.
  induction ds as [|c ds IH]; [reflexivity|]. cbn.
  intros H. apply andb_true_iff in H as [Hc Hds].
  now rewrite (digit_plain c Hc), (IH Hds).
Qed.

Lemma str_int_plain (z : Z) :
  plain (Py.str_int z) = true /\ Py.str_int z <> EmptyString.
Proof.
  assert (Hu : forall u, plain (NilZero.string_of_uint u) = true /\
                         NilZero.string_of_uint u <> EmptyString).
  { intros u. split.
    - apply digits_plain. unfold NilZero.string_of_uint.
      destruct u; try reflexivity;
        match goal with
        | |- all_digits (NilEmpty.string_of_uint ?d) = true => apply (uint_digits d)
        end.
    - unfold NilZero.string_of_uint. destruct u; cbn; discriminate. }
  unfold Py.str_int. destruct (Z.to_int z) as [u|u]; cbn [NilZero.string_of_int].
  - apply Hu.
  - destruct (Hu u) as [Hp _]. split; [cbn; exact Hp | discriminate].
Qed.

Lemma open_pdf_zathura_page path pa page xloc yloc w :
  open_pdf spawn float_str path None pa (Some (page, xloc, yloc)) w
  = viewer_outcome spawn "zathura" ["zathura"; path; "-P"; Py.str_int page] w.
Proof.
  change (open_pdf spawn float_str path None pa (Some (page, xloc, yloc)) w)
    with (open_pdf spawn float_str path (Some "zathura") (Some "-P $page")
            (Some (page, xloc, yloc)) w).
  apply (open_pdf_at spawn float_str path "zathura" (Some "-P $page")
           (page, xloc, yloc) w ["zathura"] ["-P"; Py.str_int page] eq_refl).
  destruct (str_int_plain page) as [Hplain Hne].
  assert (E : Py.replace "$page" (Py.str_int page) "-P $page"
              = ("-P " ++ Py.str_int page)%string).
  { unfold Py.replace. cbn. now rewrite string_app_empty. }
  unfold substitute. rewrite E.
  assert (Hd : no_char "$" ("-P " ++ Py.str_int page) = true)
    by (cbn; apply plain_no_dollar, Hplain).
  rewrite !(replace_without_head "$" _ _ _ Hd).
  unfold Py.shlex_split. cbn.
  apply (lex_plain_word (Py.str_int page) ["-P"] Hplain Hne).
Qed.

(** X12. With the default viewer the position is passed as the page alone:
    whatever template was given and whatever the point, [open_pdf] starts
    [zathura] with the path followed by -P and the decimal page number. *)
Theorem open_pdf_default_position path pa page xloc yloc w :
  open_pdf spawn float_str path None pa (Some (page, xloc, yloc)) w
  = viewer_outcome spawn "zathura" ["zathura"; path; "-P"; Py.str_int page] w.
Proof. apply open_pdf_zathura_page. Qed.

(** X13. A template without a dollar sign has no placeholder: it reaches the
    viewer split into words and otherwise unchanged, whatever the
    position. *)
Theorem open_pdf_template_without_placeholder path cmd template pos w argv extra :
  Py.shlex_split cmd = Some argv ->
  no_char "$" template = true ->
  Py.shlex_split template = Some extra ->
  substitute float_str template pos = template /\
  open_pdf spawn float_str path (Some cmd) (Some template) (Some pos) w
  = viewer_outcome spawn cmd (argv ++ [path] ++ extra) w.
Proof.
  intros Hcmd Hd Hextra.
  assert (E : substitute float_str template pos = template).
  { unfold substitute. destruct pos as [[page xloc] yloc].
    now rewrite !(replace_without_head "$" _ _ _ Hd). }
  split; [exact E|].
  apply open_pdf_at; [exact Hcmd|].
  destruct template; [exact Hextra | rewrite E; exact Hextra].
Qed.

(** X14. When the viewer's executable is missing, [open_pdf] prints
    "PDF viewer (<command>) not found!", tries to notify, and ends the
    process with exit code 1, with or without a position. *)
Theorem open_pdf_viewer_not_found path cmd pa w argv :
  Py.shlex_split (viewer_cmd cmd) = Some argv ->
  let msg := ("PDF viewer (" ++ viewer_cmd cmd ++ ") not found!")%string in
  (spawn w (argv ++ [path]) None = NotFound ->
   exists notified,
     open_pdf spawn float_str path cmd pa None w
     = (SysExit 1,
        w ++ [Spawned (argv ++ [path]) None NotFound; Printed msg;
              Spawned ["notify-send"; msg] None notified])) /\
  (forall c pos extra,
      cmd = Some c ->
      Py.shlex_split
        (match pa with
         | None | Some EmptyString => EmptyString
         | Some t => substitute float_str t pos
         end) = Some extra ->
      spawn w (argv ++ [path] ++ extra) None = NotFound ->
      exists notified,
        open_pdf spawn float_str path cmd pa (Some pos) w
        = (SysExit 1,
           w ++ [Spawned (argv ++ [path] ++ extra) None NotFound; Printed msg;
                 Spawned ["notify-send"; msg] None notified])).
Proof.
  intros Hsplit msg. split.
  - intros Hs. rewrite (open_pdf_plain spawn float_str path cmd pa w argv Hsplit).
    unfold viewer_outcome. rewrite Hs. unfold error_events. fold msg.
    rewrite <- app_assoc. eexists. reflexivity.
  - intros c pos extra -> Hextra Hs. cbn [viewer_cmd] in *.
    rewrite (open_pdf_at spawn float_str path c pa pos w argv extra Hsplit Hextra).
    unfold viewer_outcome. rewrite Hs. unfold error_events. fold msg.
    rewrite <- app_assoc. eexists. reflexivity.
Qed.

(** ** [main] after the TOC is read *)

Lemma main_after_toc args w pdfs w1 i items1 w2 path toc w3 :
  search_pdfs spawn
    (match base_directory args with Some b => b | None => home end)
    (search_cmd args) (hidden args) w = (Ok pdfs, w1) ->
  select spawn
    (map (fun p => if full_path args then p else Py.strip_directories p) pdfs)
    (merge_strings [selector args; pdf_selector_args args])
    (selector_indices args) true w1 = (Ok i, items1, w2) ->
  Py.getitem pdfs i = Some path ->
  get_toc pymupdf_open transform path (mupdf_coordinate_space args) w2 = (Ok toc, w3) ->
  main spawn pymupdf_open transform float_str home args w
  = (if (length toc =? 0)%nat || no_toc args then
       open_pdf spawn float_str path (pdf_viewer args) None None
     else
       toc_index <- select_ spawn (map t1_title toc)
                      (merge_strings [selector args; toc_selector_args args])
                      (selector_indices args) false ;;
       if (0 <=? toc_index)%Z then
         t <- or_raise IndexError (Py.getitem toc toc_index) ;;
         toc_point <- or_raise KeyError (dest_to (t3_dest t)) ;;
         open_pdf spawn float_str path (pdf_viewer args) (pdf_viewer_args args)
           (Some (t2_page t, px toc_point, py toc_point))
       else
         open_pdf spawn float_str path (pdf_viewer args) None None)%run w3.
Proof.
  intros Hsearch Hsel Hget Htoc. unfold main.
  unfold bind at 1. rewrite Hsearch.
  unfold bind at 1. unfold select_ at 1. rewrite Hsel.
  unfold bind at 1. rewrite Hget. cbn [or_raise ret].
  unfold bind at 1. rewrite Htoc. reflexivity.
Qed.

Lemma getitem_in {A} (l : list A) (i : Z) (x : A) :
  Py.getitem l i = Some x -> In x l.
Proof.
  unfold Py.getitem. destruct (0 <=? i)%Z.
  - apply nth_error_In.
  - destruct (- Z.of_nat (length l) <=? i)%Z; [apply nth_error_In | discriminate].
Qed.

Lemma get_toc_has_points path flag w toc w' :
  get_toc pymupdf_open transform path flag w = (Ok toc, w') ->
  Forall has_point toc.
Proof.
  unfold get_toc, bind, or_raise. intros H.
  destruct (pymupdf_open path) as [doc|]; [|discriminate].
  cbn in H. injection H as H _.
  now destruct (get_toc_items_points transform doc flag _ _ H).
Qed.

(** X15. When the user picks TOC entry [j], [main] opens the file at that
    entry: the position handed to [open_pdf] is the entry's page number
    [t[2]] and the two coordinates of its point, with the viewer command and
    the template of the command line; with the default viewer that comes to
    [zathura <path> -P <page>]. *)
Theorem main_opens_at_entry args w pdfs w1 i items1 w2 path toc w3 j items2 w4 t :
  search_pdfs spawn
    (match base_directory args with Some b => b | None => home end)
    (search_cmd args) (hidden args) w = (Ok pdfs, w1) ->
  select spawn
    (map (fun p => if full_path args then p else Py.strip_directories p) pdfs)
    (merge_strings [selector args; pdf_selector_args args])
    (selector_indices args) true w1 = (Ok i, items1, w2) ->
  Py.getitem pdfs i = Some path ->
  get_toc pymupdf_open transform path (mupdf_coordinate_space args) w2 = (Ok toc, w3) ->
  no_toc args = false ->
  select spawn (map t1_title toc)
    (merge_strings [selector args; toc_selector_args args])
    (selector_indices args) false w3 = (Ok j, items2, w4) ->
  (0 <= j)%Z ->
  Py.getitem toc j = Some t ->
  let run := main spawn pymupdf_open transform float_str home args w in
  exists point,
    dest_to (t3_dest t) = Some point /\
    run = open_pdf spawn float_str path (pdf_viewer args) (pdf_viewer_args args)
            (Some (t2_page t, px point, py point)) w4 /\
    (pdf_viewer args = None ->
     run = viewer_outcome spawn "zathura"
             ["zathura"; path; "-P"; Py.str_int (t2_page t)] w4).
Proof.
  intros Hsearch Hsel Hget Htoc Hno Hsel2 Hj Ht run.
  assert (Hpoint : exists point, dest_to (t3_dest t) = Some point).
  { pose proof (get_toc_has_points _ _ _ _ _ Htoc) as Hall.
    rewrite Forall_forall in Hall. specialize (Hall t (getitem_in _ _ _ Ht)).
    unfold has_point in Hall. destruct (dest_to (t3_dest t)); [eauto | congruence]. }
  destruct Hpoint as [point Hpoint]. exists point. split; [exact Hpoint|].
  assert (Hrun : run = open_pdf spawn float_str path (pdf_viewer args)
                         (pdf_viewer_args args)
                         (Some (t2_page t, px point, py point)) w4).
  { subst run.
    rewrite (main_after_toc args w pdfs w1 i items1 w2 path toc w3 Hsearch Hsel Hget Htoc).
    rewrite Hno. destruct toc as [|t0 toc]; [apply getitem_in in Ht; destruct Ht|].
    cbn [length Nat.eqb orb].
    unfold bind at 1. unfold select_ at 1. rewrite Hsel2.
    replace (0 <=? j)%Z with true by (symmetry; apply Z.leb_le; exact Hj).
    unfold bind at 1. rewrite Ht. cbn [or_raise ret].
    unfold bind at 1. rewrite Hpoint. reflexivity. }
  split; [exact Hrun|].
  intros Hv. rewrite Hrun, Hv. apply open_pdf_zathura_page.
Qed.

(** X16. An index the selector gives outside the list is not caught: a file
    index outside the search result, and a TOC index at or above the length
    of the TOC, end [main] with [IndexError], and the viewer is not
    started. *)
Theorem main_index_out_of_range args w pdfs w1 i items1 w2 :
  search_pdfs spawn
    (match base_directory args with Some b => b | None => home end)
    (search_cmd args) (hidden args) w = (Ok pdfs, w1) ->
  select spawn
    (map (fun p => if full_path args then p else Py.strip_directories p) pdfs)
    (merge_strings [selector args; pdf_selector_args args])
    (selector_indices args) true w1 = (Ok i, items1, w2) ->
  let run := main spawn pymupdf_open transform float_str home args w in
  ((Z.of_nat (length pdfs) <= i \/ i < - Z.of_nat (length pdfs))%Z ->
   run = (Raised IndexError, w2)) /\
  (forall path toc w3 j items2 w4,
      Py.getitem pdfs i = Some path ->
      get_toc pymupdf_open transform path (mupdf_coordinate_space args) w2
      = (Ok toc, w3) ->
      toc <> [] -> no_toc args = false ->
      select spawn (map t1_title toc)
        (merge_strings [selector args; toc_selector_args args])
        (selector_indices args) false w3 = (Ok j, items2, w4) ->
      (Z.of_nat (length toc) <= j)%Z ->
      run = (Raised IndexError, w4)).
Proof.
  intros Hsearch Hsel run. split.
  - intros Hout.
    assert (Hget : Py.getitem pdfs i = None).
    { unfold Py.getitem. destruct (0 <=? i)%Z eqn:E.
      - apply Z.leb_le in E. apply nth_error_None. lia.
      - apply Z.leb_gt in E.
        destruct (- Z.of_nat (length pdfs) <=? i)%Z eqn:E2; [|reflexivity].
        apply Z.leb_le in E2. lia. }
    subst run. unfold main.
    unfold bind at 1. rewrite Hsearch.
    unfold bind at 1. unfold select_ at 1. rewrite Hsel.
    unfold bind at 1. rewrite Hget. reflexivity.
  - intros path toc w3 j items2 w4 Hget Htoc Hne Hno Hsel2 Hj.
    subst run.
    rewrite (main_after_toc args w pdfs w1 i items1 w2 path toc w3 Hsearch Hsel Hget Htoc).
    rewrite Hno. destruct toc as [|t0 toc]; [congruence|].
    cbn [length Nat.eqb orb].
    unfold bind at 1. unfold select_ at 1. rewrite Hsel2.
    replace (0 <=? j)%Z with true by (symmetry; apply Z.leb_le; lia).
    assert (Hnone : Py.getitem (t0 :: toc) j = None).
    { unfold Py.getitem.
      replace (0 <=? j)%Z with true by (symmetry; apply Z.leb_le; lia).
      apply nth_error_None. lia. }
    unfold bind at 1. rewrite Hnone. reflexivity.
Qed.

(** X17. When the search finds no file, [main] never gets to a viewer: the
    run cannot end well, since whatever index the selector gives there is
    nothing to pick. *)
Theorem main_without_pdfs args w w1 :
  search_pdfs spawn
    (match base_directory args with Some b => b | None => home end)
    (search_cmd args) (hidden args) w = (Ok [], w1) ->
  forall u, fst (main spawn pymupdf_open transform float_str home args w) <> Ok u.
Proof.
  intros Hsearch u. unfold main.
  unfold bind at 1. rewrite Hsearch. cbn [map].
  unfold bind at 1.
  destruct (select_ spawn [] (merge_strings [selector args; pdf_selector_args args])
              (selector_indices args) true w1) as [[i|c|e] w2]; cbn; try discriminate.
  unfold bind at 1.
  assert (Hnone : Py.getitem (@nil string) i = None).
  { unfold Py.getitem. cbn. destruct (0 <=? i)%Z; [now destruct (Z.to_nat i)|].
    destruct (-0 <=? i)%Z; [now destruct (Z.to_nat (0 + i))|reflexivity]. }
  rewrite Hnone. cbn. discriminate.
Qed.

(** ** The exceptions [main] can end with *)

Lemma bind_not_raised {A B} (e : exn) (m : M A) (k : A -> M B) (w : trace) :
  fst (m w) <> Raised e ->
  (forall a w', m w = (Ok a, w') -> fst (k a w') <> Raised e) ->
  fst (bind m k w) <> Raised e.
Proof.
  intros Hm Hk. unfold bind. destruct (m w) as [[a|c|e'] w'] eqn:E; cbn in *.
  - now apply Hk.
  - discriminate.
  - intros H. apply Hm. injection H as ->. reflexivity.
Qed.

Lemma or_raise_not_key {A} (e : exn) (o : option A) (w : trace) :
  e <> KeyError -> fst (or_raise e o w) <> Raised KeyError.
Proof. intros He. destruct o; cbn; congruence. Qed.

Lemma or_raise_ok {A} (e : exn) (o : option A) (w w' : trace) (a : A) :
  or_raise e o w = (Ok a, w') -> o = Some a.
Proof. destruct o; cbn; intros H; [injection H as -> _; reflexivity | discriminate]. Qed.

Lemma try_running_not_key argv msg input w :
  fst (try_running_subprocess spawn argv msg input w) <> Raised KeyError.
Proof.
  destruct argv as [|a argv]; [cbn; discriminate|].
  destruct (spawn w (a :: argv) input) as [out|] eqn:Hs.
  - rewrite (try_running_completed spawn (a :: argv) msg input w out);
      [cbn; discriminate | discriminate | exact Hs].
  - rewrite (try_running_not_found spawn (a :: argv) msg input w);
      [cbn; discriminate | discriminate | exact Hs].
Qed.

Lemma subprocess_run_not_key argv input w :
  fst (subprocess_run spawn argv input w) <> Raised KeyError.
Proof.
  unfold subprocess_run. destruct argv; [cbn; discriminate|].
  destruct (spawn w _ input); cbn; discriminate.
Qed.

Lemma search_pdfs_not_key base cmd hid w :
  fst (search_pdfs spawn base cmd hid w) <> Raised KeyError.
Proof.
  unfold search_pdfs. destruct cmd as [cmd|].
  - apply bind_not_raised; [apply or_raise_not_key; discriminate|].
    intros argv w' _. apply bind_not_raised; [apply try_running_not_key|].
    intros out w'' _. cbn. discriminate.
  - unfold except_not_found.
    match goal with
    | |- context [bind (subprocess_run spawn ?argv None) _ w] =>
        pose proof (subprocess_run_not_key argv None w) as H1;
        unfold bind at 1; destruct (subprocess_run spawn argv None w) as [[out|c|e] w1]
    end; cbn in *; try discriminate.
    destruct e; try (cbn; congruence).
    apply bind_not_raised; [apply subprocess_run_not_key|].
    intros out w'' _. cbn. discriminate.
Qed.

Lemma select_not_key items cmd indices check w :
  fst (select_ spawn items cmd indices check w) <> Raised KeyError.
Proof.
  unfold select_, select.
  match goal with
  | |- context [let '(r, w') := ?run w in _] =>
      assert (H : fst (run w) <> Raised KeyError);
      [|destruct (run w) as [r w']; exact H]
  end.
  apply bind_not_raised; [apply or_raise_not_key; discriminate|].
  intros argv w1 _. apply bind_not_raised; [apply try_running_not_key|].
  intros out w2 _. apply bind_not_raised.
  - match goal with
    | |- context [match ?sel with EmptyString => _ | String _ _ => _ end] =>
        destruct sel
    end; [destruct check|].
    + rewrite send_error_run. cbn. discriminate.
    + cbn. discriminate.
    + cbn. discriminate.
  - intros [sel|z] w3 _; [apply or_raise_not_key; discriminate | cbn; discriminate].
Qed.

Lemma get_toc_items_result doc flag ts :
  (exists toc, get_toc_items transform doc flag ts = Ok toc) \/
  get_toc_items transform doc flag ts = Raised ValueError.
Proof.
  induction ts as [|t ts IH]; cbn; [eauto|].
  destruct (load_page doc (t0_lvl t)); [|now right].
  destruct IH as [[toc ->] | ->]; eauto.
Qed.

Lemma get_toc_not_key path flag w :
  fst (get_toc pymupdf_open transform path flag w) <> Raised KeyError.
Proof.
  unfold get_toc. apply bind_not_raised; [apply or_raise_not_key; discriminate|].
  intros doc w' _. cbn.
  destruct (get_toc_items_result doc flag (doc_toc doc)) as [[toc ->] | ->]; discriminate.
Qed.

Lemma open_pdf_not_key path cmd pa pos w :
  fst (open_pdf spawn float_str path cmd pa pos w) <> Raised KeyError.
Proof.
  unfold open_pdf. destruct pos as [pos|].
  - apply bind_not_raised; [apply or_raise_not_key; discriminate|].
    intros argv w1 _. apply bind_not_raised; [apply or_raise_not_key; discriminate|].
    intros extra w2 _. apply bind_not_raised; [apply try_running_not_key|].
    intros out w3 _. cbn. discriminate.
  - apply bind_not_raised; [apply or_raise_not_key; discriminate|].
    intros argv w1 _. apply bind_not_raised; [apply try_running_not_key|].
    intros out w3 _. cbn. discriminate.
Qed.

(** X18. [main] never ends with a [KeyError]: the point of the chosen entry
    is read from a TOC in which [get_toc] has given every entry one. *)
Theorem main_never_key_error args w :
  fst (main spawn pymupdf_open transform float_str home args w) <> Raised KeyError.
Proof.
  unfold main.
  apply bind_not_raised; [apply search_pdfs_not_key|]. intros pdfs w1 _.
  apply bind_not_raised; [apply select_not_key|]. intros i w2 _.
  apply bind_not_raised; [apply or_raise_not_key; discriminate|]. intros path w3 _.
  apply bind_not_raised; [apply get_toc_not_key|]. intros toc w4 Htoc.
  destruct ((length toc =? 0)%nat || no_toc args); [apply open_pdf_not_key|].
  apply bind_not_raised; [apply select_not_key|]. intros j w5 _.
  destruct (0 <=? j)%Z; [|apply open_pdf_not_key].
  apply bind_not_raised; [apply or_raise_not_key; discriminate|]. intros t w6 Ht.
  apply or_raise_ok in Ht.
  pose proof (get_toc_has_points _ _ _ _ _ Htoc) as Hall.
  rewrite Forall_forall in Hall. specialize (Hall t (getitem_in _ _ _ Ht)).
  unfold has_point in Hall.
  destruct (dest_to (t3_dest t)) as [point|]; [|congruence].
  apply bind_not_raised; [cbn; discriminate|]. intros p w7 _.
  apply open_pdf_not_key.
Qed.

(** ** The default viewer *)

Lemma open_pdf_page_template path cmd argv page xloc yloc w :
  Py.shlex_split cmd = Some argv ->
  open_pdf spawn float_str path (Some cmd) (Some "--page $page")
    (Some (page, xloc, yloc)) w
  = viewer_outcome spawn cmd (argv ++ [path] ++ ["--page"; Py.str_int page]) w.
Proof.
  intros Hcmd. apply open_pdf_at; [exact Hcmd|].
  destruct (str_int_plain page) as [Hplain Hne].
  assert (E : Py.replace "$page" (Py.str_int page) "--page $page"
              = ("--page " ++ Py.str_int page)%string).
  { unfold Py.replace. cbn. now rewrite string_app_empty. }
  unfold substitute. rewrite E.
  assert (Hd : no_char "$" ("--page " ++ Py.str_int page) = true)
    by (cbn; apply plain_no_dollar, Hplain).
  rewrite !(replace_without_head "$" _ _ _ Hd).
  unfold Py.shlex_split. cbn.
  apply (lex_plain_word (Py.str_int page) ["--page"] Hplain Hne).
Qed.

Lemma main_at_entry args w pdfs w1 i items1 w2 path toc w3 j items2 w4 t point :
  search_pdfs spawn
    (match base_directory args with Some b => b | None => home end)
    (search_cmd args) (hidden args) w = (Ok pdfs, w1) ->
  select spawn
    (map (fun p => if full_path args then p else Py.strip_directories p) pdfs)
    (merge_strings [selector args; pdf_selector_args args])
    (selector_indices args) true w1 = (Ok i, items1, w2) ->
  Py.getitem pdfs i = Some path ->
  get_toc pymupdf_open transform path (mupdf_coordinate_space args) w2 = (Ok toc, w3) ->
  no_toc args = false ->
  select spawn (map t1_title toc)
    (merge_strings [selector args; toc_selector_args args])
    (selector_indices args) false w3 = (Ok j, items2, w4) ->
  (0 <= j)%Z ->
  Py.getitem toc j = Some t ->
  dest_to (t3_dest t) = Some point ->
  main spawn pymupdf_open transform float_str home args w
  = open_pdf spawn float_str path (pdf_viewer args) (pdf_viewer_args args)
      (Some (t2_page t, px point, py point)) w4.
Proof.
  intros Hsearch Hsel Hget Htoc Hno Hsel2 Hj Ht Hpoint.
  rewrite (main_after_toc args w pdfs w1 i items1 w2 path toc w3 Hsearch Hsel Hget Htoc).
  rewrite Hno. destruct toc as [|t0 toc]; [apply getitem_in in Ht; destruct Ht|].
  cbn [length Nat.eqb orb].
  unfold bind at 1. unfold select_ at 1. rewrite Hsel2.
  replace (0 <=? j)%Z with true by (symmetry; apply Z.leb_le; exact Hj).
  unfold bind at 1. rewrite Ht. cbn [or_raise ret].
  unfold bind at 1. rewrite Hpoint. reflexivity.
Qed.

(** C10. Without a viewer command [open_pdf] starts [zathura]: with the path
    alone when there is no position, and with the path, -P and the page
    when there is one, whatever template it was given; the template
    "-P $page" has taken the place of the caller's.  So in [main] the
    template of the command line has no effect without a viewer command: the
    entry the user picks is opened with [zathura <path> -P <page>] for
    every template.  With a viewer command the template does take effect:
    "--page $page" makes the words after the path --page and the page. *)
Theorem open_pdf_default_viewer :
  (forall path pa w,
      open_pdf spawn float_str path None pa None w
      = viewer_outcome spawn "zathura" ["zathura"; path] w) /\
  (forall path pa page xloc yloc w,
      open_pdf spawn float_str path None pa (Some (page, xloc, yloc)) w
      = viewer_outcome spawn "zathura"
          ["zathura"; path; "-P"; Py.str_int page] w) /\
  (forall args w pdfs w1 i items1 w2 path toc w3 j items2 w4 t,
      pdf_viewer args = None ->
      search_pdfs spawn
        (match base_directory args with Some b => b | None => home end)
        (search_cmd args) (hidden args) w = (Ok pdfs, w1) ->
      select spawn
        (map (fun p => if full_path args then p else Py.strip_directories p) pdfs)
        (merge_strings [selector args; pdf_selector_args args])
        (selector_indices args) true w1 = (Ok i, items1, w2) ->
      Py.getitem pdfs i = Some path ->
      get_toc pymupdf_open transform path (mupdf_coordinate_space args) w2
      = (Ok toc, w3) ->
      no_toc args = false ->
      select spawn (map t1_title toc)
        (merge_strings [selector args; toc_selector_args args])
        (selector_indices args) false w3 = (Ok j, items2, w4) ->
      (0 <= j)%Z ->
      Py.getitem toc j = Some t ->
      forall pa,
        main spawn pymupdf_open transform float_str home (with_viewer_args args pa) w
        = viewer_outcome spawn "zathura"
            ["zathura"; path; "-P"; Py.str_int (t2_page t)] w4) /\
  (forall path cmd argv page xloc yloc w,
      Py.shlex_split cmd = Some argv ->
      open_pdf spawn float_str path (Some cmd) (Some "--page $page")
        (Some (page, xloc, yloc)) w
      = viewer_outcome spawn cmd (argv ++ [path; "--page"; Py.str_int page]) w).
Proof.
  split; [|split; [|split]].
  - intros path pa w.
    apply (open_pdf_plain spawn float_str path None pa w ["zathura"] eq_refl).
  - intros. apply open_pdf_zathura_page.
  - intros args w pdfs w1 i items1 w2 path toc w3 j items2 w4 t
      Hv Hsearch Hsel Hget Htoc Hno Hsel2 Hj Ht pa.
    assert (Hpoint : exists point, dest_to (t3_dest t) = Some point).
    { pose proof (get_toc_has_points _ _ _ _ _ Htoc) as Hall.
      rewrite Forall_forall in Hall. specialize (Hall t (getitem_in _ _ _ Ht)).
      unfold has_point in Hall. destruct (dest_to (t3_dest t)); [eauto | congruence]. }
    destruct Hpoint as [point Hpoint].
    rewrite (main_at_entry (with_viewer_args args pa) w pdfs w1 i items1 w2 path
               toc w3 j items2 w4 t point Hsearch Hsel Hget Htoc Hno Hsel2 Hj Ht Hpoint).
    cbn [pdf_viewer pdf_viewer_args with_viewer_args]. rewrite Hv.
    apply open_pdf_zathura_page.
  - intros path cmd argv page xloc yloc w Hcmd.
    now apply open_pdf_page_template.
Qed.

End MoreFacts.

(** ** The further properties on the scenarios *)

Lemma search_pdfs_default_chain_witness :
  search_pdfs find_only "/home/u" None true []
  = (Ok ["/home/u/a.pdf"; "/home/u/papers/b.pdf"],
     [Spawned (fd_argv "/home/u" true) None NotFound;
      Spawned (find_argv "/home/u") None
        (Completed (unlines ["/home/u/a.pdf"; "/home/u/papers/b.pdf"]))]).
Proof.
  exact (proj2
    (search_pdfs_default_chain find_only "/home/u" true []
       (unlines ["/home/u/a.pdf"; "/home/u/papers/b.pdf"])) eq_refl eq_refl).
Defined.

Lemma search_pdfs_custom_command_witness :
  exists notified,
    search_pdfs find_only "/home/u" (Some "locate -r '\.pdf$'") true []
    = (SysExit 1,
       [Spawned ["locate"; "-r"; "\.pdf$"] None NotFound;
        Printed "Command not found!";
        Spawned ["notify-send"; "Command not found!"] None notified]).
Proof.
  refine (proj2 (proj2 (proj2
    (search_pdfs_custom_command find_only "/home/u" true "locate -r '\.pdf$'" [])))
    ["locate"; "-r"; "\.pdf$"] eq_refl _ eq_refl).
  discriminate.
Defined.

Lemma lines_unlines_witness :
  lines ("/home/u/a.pdf" ++ newline ++ "/home/u/b.pdf" ++ newline ++ "/home/u/c.p")
  = ["/home/u/a.pdf"; "/home/u/b.pdf"].
Proof.
  refine (lines_unlines ["/home/u/a.pdf"; "/home/u/b.pdf"] "/home/u/c.p" _ eq_refl).
  repeat constructor.
Defined.

Lemma strip_directories_basename_witness :
  Py.strip_directories "/home/u/papers/b.pdf" = "b.pdf" /\
  Py.strip_directories "b.pdf" = "b.pdf".
Proof.
  exact (strip_directories_basename "/home/u/papers" "b.pdf" eq_refl eq_refl eq_refl).
Defined.

Lemma select_bare_index_witness :
  select (answering ("2" ++ newline)) ["a"; "b"; "c"]
    (Some "rofi -dmenu -format i") false true []
  = (Ok 2%Z, ["a"; "b"; "c"],
     [Spawned ["rofi"; "-dmenu"; "-format"; "i"]
        (Some ("a" ++ newline ++ "b" ++ newline ++ "c")%string)
        (Completed ("2" ++ newline))]).
Proof.
  refine (select_bare_index (answering ("2" ++ newline)) ["a"; "b"; "c"]
            "rofi -dmenu -format i" true [] ["rofi"; "-dmenu"; "-format"; "i"]
            2 ("2" ++ newline) eq_refl _ _ (or_intror eq_refl) eq_refl).
  - discriminate.
  - unfold Py.int_max_str_digits. cbn. lia.
Defined.

Lemma select_selector_not_found_witness :
  exists notified,
    select no_executables ["a"; "b"] None false true []
    = (SysExit 1,
       [("0" ++ String Py.tab "a")%string; ("1" ++ String Py.tab "b")%string],
       [Spawned ["fzf"; "--with-nth"; "2.."]
          (Some ("0" ++ String Py.tab "a" ++ newline ++ "1" ++ String Py.tab "b")%string)
          NotFound;
        Printed "Selector (fzf --with-nth 2..) not found!";
        Spawned ["notify-send"; "Selector (fzf --with-nth 2..) not found!"]
          None notified]).
Proof.
  refine (select_selector_not_found no_executables ["a"; "b"] None false true []
            ["fzf"; "--with-nth"; "2.."] eq_refl _ eq_refl).
  discriminate.
Defined.

Lemma unsplittable_command_raises_witness :
  Py.shlex_split "rofi -p 'pick one" = None /\
  select (answering "0") ["a"] (Some "rofi -p 'pick one") false true []
  = (Raised ValueError, ["a"], []).
Proof.
  split; [reflexivity|].
  exact (proj1 (unsplittable_command_raises (answering "0") short_float_str [])
           ["a"] (Some "rofi -p 'pick one") false true eq_refl).
Defined.

Lemma get_toc_needs_level_pages_witness :
  shelf "/home/u/leaflet.pdf" = Some leaflet /\
  get_toc shelf affine "/home/u/leaflet.pdf" false [] = (Raised ValueError, []).
Proof.
  split; [reflexivity|].
  refine (proj2 (proj2
    (get_toc_needs_level_pages shelf affine "/home/u/leaflet.pdf" false [] leaflet
       eq_refl)) eq_refl _ _).
  - discriminate.
  - repeat constructor.
Defined.

Lemma get_toc_keeps_entries_witness :
  get_toc library affine "/home/u/a.pdf" false []
  = (Ok (map with_zero_point (doc_toc linked_doc)), []) /\
  map t1_title (map with_zero_point (doc_toc linked_doc)) = ["Intro"; "Homepage"].
Proof.
  assert (H : get_toc library affine "/home/u/a.pdf" false []
              = (Ok (map with_zero_point (doc_toc linked_doc)), []))
    by (vm_compute; reflexivity).
  split; [exact H|].
  destruct (get_toc_keeps_entries library affine _ _ _ _ _ H)
    as (doc & Hopen & _ & _ & Htitles & _).
  rewrite Htitles. injection Hopen as <-. reflexivity.
Defined.

Lemma open_pdf_template_without_placeholder_witness :
  open_pdf (answering "") short_float_str "/home/u/a.pdf" (Some "evince")
    (Some "--fullscreen -i 1") (Some (3%Z, 10.5%float, 20.25%float)) []
  = (Ok tt,
     [Spawned ["evince"; "/home/u/a.pdf"; "--fullscreen"; "-i"; "1"] None
        (Completed "")]).
Proof.
  exact (proj2
    (open_pdf_template_without_placeholder (answering "") short_float_str
       "/home/u/a.pdf" "evince" "--fullscreen -i 1"
       (3%Z, 10.5%float, 20.25%float) [] ["evince"] ["--fullscreen"; "-i"; "1"]
       eq_refl eq_refl eq_refl)).
Defined.

Lemma open_pdf_viewer_not_found_witness :
  exists notified,
    open_pdf no_executables short_float_str "/home/u/a.pdf" None None None []
    = (SysExit 1,
       [Spawned ["zathura"; "/home/u/a.pdf"] None NotFound;
        Printed "PDF viewer (zathura) not found!";
        Spawned ["notify-send"; "PDF viewer (zathura) not found!"] None notified]).
Proof.
  exact (proj1
    (open_pdf_viewer_not_found no_executables short_float_str "/home/u/a.pdf"
       None None [] ["zathura"] eq_refl) eq_refl).
Defined.

Lemma main_opens_at_entry_witness :
  exists w4,
    main choosing_desk library affine short_float_str "/home/u" plain_args []
    = viewer_outcome choosing_desk "zathura"
        ["zathura"; "/home/u/papers/b.pdf"; "-P"; "3"] w4.
Proof.
  destruct (main_opens_at_entry choosing_desk library affine short_float_str
              "/home/u" plain_args []
              _ _ _ _ _ _ _ _ _ _ _ _
              ltac:(vm_compute; reflexivity) ltac:(vm_compute; reflexivity)
              ltac:(vm_compute; reflexivity) ltac:(vm_compute; reflexivity)
              eq_refl ltac:(vm_compute; reflexivity) ltac:(discriminate)
              ltac:(vm_compute; reflexivity))
    as (point & _ & _ & Hrun).
  eexists. exact (Hrun eq_refl).
Defined.

Lemma main_without_pdfs_witness :
  search_pdfs (answering "") "/home/u" None false []
  = (Ok [], [Spawned (fd_argv "/home/u" false) None (Completed "")]) /\
  fst (main (answering "") library affine short_float_str "/home/u" plain_args [])
  <> Ok tt.
Proof.
  split; [reflexivity|].
  exact (main_without_pdfs (answering "") library affine short_float_str
           "/home/u" plain_args [] _ ltac:(vm_compute; reflexivity) tt).
Defined.

(** ** [str] of a number is a decimal numeral *)

Lemma all_digits_app (a b : string) :
  all_digits (a ++ b) = all_digits a && all_digits b.
Proof.
  induction a as [|c a IH]; cbn; [reflexivity|]. now rewrite IH, andb_assoc.
Qed.

Lemma zeros_digits (n : nat) : all_digits (Py.zeros n) = true.
Proof. induction n; cbn; auto. Qed.

Lemma substring_digits (s : string) (i j : nat) :
  all_digits s = true -> all_digits (substring i j s) = true.
Proof.
  revert i j. induction s as [|c s IH]; intros i j H.
  - destruct i, j; reflexivity.
  - cbn in H. apply andb_true_iff in H as [Hc Hs].
    destruct i as [|i]; [destruct j as [|j]|]; cbn.
    + reflexivity.
    + now rewrite Hc, (IH 0%nat j Hs).
    + now apply IH.
Qed.

Lemma substring_nonempty (s : string) (i j : nat) :
  (0 < j)%nat -> (i + j <= String.length s)%nat -> substring i j s <> EmptyString.
Proof.
  revert i j. induction s as [|c s IH]; intros i j Hj Hlen; cbn in Hlen; [lia|].
  destruct i as [|i]; [destruct j as [|j]; [lia | cbn; discriminate]|].
  cbn. apply IH; lia.
Qed.

Lemma list_digits_string (l : list ascii) :
  all_digits (string_of_list_ascii l) = forallb Py.is_digit l.
Proof. induction l as [|c l IH]; cbn; [reflexivity | now rewrite IH]. Qed.

Lemma string_digits_list (s : string) :
  forallb Py.is_digit (list_ascii_of_string s) = all_digits s.
Proof. induction s as [|c s IH]; cbn; [reflexivity | now rewrite IH]. Qed.

Lemma strip_zeros_rev_digits (l : list ascii) :
  forallb Py.is_digit l = true -> forallb Py.is_digit (Py.strip_zeros_rev l) = true.
Proof.
  induction l as [|c l IH]; [reflexivity|]. intros H.
  pose proof H as H'. cbn in H'. apply andb_true_iff in H' as [_ Hl].
  specialize (IH Hl). cbn [Py.strip_zeros_rev].
  destruct c as [[] [] [] [] [] [] [] []]; try exact H; exact IH.
Qed.

Lemma forallb_rev {A} (f : A -> bool) (l : list A) :
  forallb f (rev l) = forallb f l.
Proof.
  induction l as [|x l IH]; [reflexivity|]. cbn.
  rewrite forallb_app, IH. cbn. rewrite andb_true_r. apply andb_comm.
Qed.

Lemma strip_trailing_zeros_digits (s : string) :
  all_digits s = true ->
  all_digits (Py.strip_trailing_zeros s) = true /\
  Py.strip_trailing_zeros s <> EmptyString.
Proof.
  intros H. unfold Py.strip_trailing_zeros.
  assert (Hl : forallb Py.is_digit
                 (rev (Py.strip_zeros_rev (rev (list_ascii_of_string s)))) = true).
  { rewrite forallb_rev. apply strip_zeros_rev_digits.
    now rewrite forallb_rev, string_digits_list. }
  destruct (rev (Py.strip_zeros_rev (rev (list_ascii_of_string s)))) as [|c l].
  - split; [reflexivity | discriminate].
  - split; [now rewrite list_digits_string | cbn; discriminate].
Qed.

Lemma str_int_nonneg_digits (c : Z) :
  (0 <= c)%Z -> all_digits (Py.str_int c) = true /\ Py.str_int c <> EmptyString.
Proof.
  intros Hc. destruct (str_nat_digits (Z.to_nat c)) as (Hall & Hne & _).
  rewrite Z2Nat.id in Hall, Hne by exact Hc. now split.
Qed.

Lemma candidate_nonneg closed x lo hi den p n c k :
  (0 <= x)%Z -> (0 < den)%Z ->
  Py.candidate closed x lo hi den p n = Some (c, k) -> (0 <= c)%Z.
Proof.
  intros Hx Hden. unfold Py.candidate.
  set (sn := if (0 <=? p - n + 1)%Z then 1%Z else (10 ^ (- (p - n + 1)))%Z).
  set (sd := if (0 <=? p - n + 1)%Z then (10 ^ (p - n + 1))%Z else 1%Z).
  assert (Hsn : (0 < sn)%Z).
  { subst sn. destruct (0 <=? p - n + 1)%Z eqn:E; [lia|].
    apply Z.leb_gt in E. apply Z.pow_pos_nonneg; lia. }
  assert (Hsd : (0 < sd)%Z).
  { subst sd. destruct (0 <=? p - n + 1)%Z eqn:E; [|lia].
    apply Z.leb_le in E. apply Z.pow_pos_nonneg; lia. }
  assert (Hq : (0 <= x * sn / (den * sd))%Z) by (apply Z.div_pos; nia).
  repeat match goal with
         | |- context [if ?b then _ else _] => destruct b
         end; intros H; try discriminate; injection H as <- _; lia.
Qed.

Lemma shortest_from_nonneg closed x lo hi den p fuel n :
  (0 <= x)%Z -> (0 < den)%Z ->
  (0 <= fst (Py.shortest_from closed x lo hi den p n fuel))%Z.
Proof.
  intros Hx Hden. revert n. induction fuel as [|fuel IH]; intros n; cbn [Py.shortest_from].
  - cbn [fst]. apply Z.div_pos.
    + destruct (0 <=? p - n + 1)%Z eqn:E; [lia|].
      apply Z.leb_gt in E.
      assert (0 < 10 ^ (- (p - n + 1)))%Z by (apply Z.pow_pos_nonneg; lia). nia.
    + destruct (0 <=? p - n + 1)%Z eqn:E; [|lia].
      apply Z.leb_le in E.
      assert (0 < 10 ^ (p - n + 1))%Z by (apply Z.pow_pos_nonneg; lia). nia.
  - destruct (Py.candidate closed x lo hi den p n) as [[c k]|] eqn:E.
    + cbn [fst]. eapply candidate_nonneg; eassumption.
    + apply IH.
Qed.

Lemma shortest_digits_digits (m : positive) (e : Z) :
  all_digits (fst (Py.shortest_digits m e)) = true /\
  fst (Py.shortest_digits m e) <> EmptyString.
Proof.
  unfold Py.shortest_digits.
  set (up := if (0 <=? e - 2)%Z then (2 ^ (e - 2))%Z else 1%Z).
  set (den := if (0 <=? e - 2)%Z then 1%Z else (2 ^ (2 - e))%Z).
  assert (Hup : (0 < up)%Z).
  { subst up. destruct (0 <=? e - 2)%Z eqn:E; [|lia].
    apply Z.leb_le in E. apply Z.pow_pos_nonneg; lia. }
  assert (Hden : (0 < den)%Z).
  { subst den. destruct (0 <=? e - 2)%Z eqn:E; [lia|].
    apply Z.leb_gt in E. apply Z.pow_pos_nonneg; lia. }
  match goal with
  | |- context [Py.shortest_from ?cl ?x ?lo ?hi ?d ?p 1 17] =>
      pose proof (shortest_from_nonneg cl x lo hi d p 17 1) as Hc;
      destruct (Py.shortest_from cl x lo hi d p 1 17) as [c k]
  end.
  cbn [fst] in *.
  apply strip_trailing_zeros_digits, str_int_nonneg_digits, Hc; [nia | exact Hden].
Qed.

Lemma numeral_digits_int (a b : string) :
  all_digits a = true -> numeral_from NInt (a ++ b) = numeral_from NInt b.
Proof.
  induction a as [|c a IH]; [reflexivity|]. cbn. intros H.
  apply andb_true_iff in H as [Hc Ha]. now rewrite Hc, (IH Ha).
Qed.

Lemma numeral_digits_frac (a b : string) :
  all_digits a = true -> numeral_from NFrac (a ++ b) = numeral_from NFrac b.
Proof.
  induction a as [|c a IH]; [reflexivity|]. cbn. intros H.
  apply andb_true_iff in H as [Hc Ha]. now rewrite Hc, (IH Ha).
Qed.

Lemma numeral_digits_exp (a : string) :
  all_digits a = true -> numeral_from NExp a = true.
Proof.
  induction a as [|c a IH]; [reflexivity|]. cbn. intros H.
  apply andb_true_iff in H as [Hc Ha]. now rewrite Hc, (IH Ha).
Qed.

Lemma numeral_exponent (ex : Z) : numeral_from NExpSign (Py.exponent_str ex) = true.
Proof.
  unfold Py.exponent_str.
  destruct (str_int_nonneg_digits (Z.abs ex) (Z.abs_nonneg ex)) as [Hall Hne].
  assert (H : numeral_from NExpFirst
                ((if (Z.abs ex <? 10)%Z then "0" else "") ++ Py.str_int (Z.abs ex))
              = true).
  { destruct (Z.abs ex <? 10)%Z; cbn.
    - now apply numeral_digits_exp.
    - destruct (Py.str_int (Z.abs ex)) as [|c r]; [congruence|]. cbn in *.
      apply andb_true_iff in Hall as [Hc Hr]. rewrite Hc.
      now apply numeral_digits_exp. }
  destruct (ex <? 0)%Z; cbn; exact H.
Qed.

Lemma numeral_frac_first (a b : string) :
  all_digits a = true -> a <> EmptyString ->
  numeral_from NFracFirst (a ++ b) = numeral_from NFrac b.
Proof.
  intros H Hne. destruct a as [|c a]; [congruence|]. cbn in *.
  apply andb_true_iff in H as [Hc Ha]. rewrite Hc. now apply numeral_digits_frac.
Qed.

Lemma numeral_int_first (a b : string) :
  all_digits a = true -> a <> EmptyString ->
  numeral_from NIntFirst (a ++ b) = numeral_from NInt b.
Proof.
  intros H Hne. destruct a as [|c a]; [congruence|]. cbn in *.
  apply andb_true_iff in H as [Hc Ha]. rewrite Hc. now apply numeral_digits_int.
Qed.

Lemma numeral_e (s : string) :
  numeral_from NInt ("e" ++ s) = numeral_from NExpSign s /\
  numeral_from NFrac ("e" ++ s) = numeral_from NExpSign s /\
  numeral_from NInt ("." ++ s) = numeral_from NFracFirst s.
Proof. repeat split. Qed.

Lemma format_digits_numeral (ds : string) (decpt : Z) :
  all_digits ds = true -> ds <> EmptyString ->
  numeral_from NIntFirst (Py.format_digits ds decpt) = true.
Proof.
  intros Hall Hne. unfold Py.format_digits.
  destruct ((16 <? decpt)%Z || (decpt <? -3)%Z).
  - destruct ds as [|d rest]; [congruence|].
    pose proof Hall as H. cbn in H. apply andb_true_iff in H as [Hd Hrest].
    destruct rest as [|r rest].
    + change (String d ("e" ++ Py.exponent_str (decpt - 1)))
        with (String d EmptyString ++ ("e" ++ Py.exponent_str (decpt - 1)))%string.
      rewrite numeral_int_first; [|cbn; now rewrite Hd|discriminate].
      destruct (numeral_e (Py.exponent_str (decpt - 1))) as (-> & _ & _).
      apply numeral_exponent.
    + change (String d ("." ++ String r rest ++ "e" ++ Py.exponent_str (decpt - 1)))
        with (String d EmptyString
              ++ ("." ++ (String r rest ++ ("e" ++ Py.exponent_str (decpt - 1)))))%string.
      rewrite numeral_int_first; [|cbn; now rewrite Hd|discriminate].
      destruct (numeral_e (String r rest ++ ("e" ++ Py.exponent_str (decpt - 1))))
        as (_ & _ & ->).
      rewrite numeral_frac_first; [|exact Hrest|discriminate].
      destruct (numeral_e (Py.exponent_str (decpt - 1))) as (_ & -> & _).
      apply numeral_exponent.
  - destruct (decpt <=? 0)%Z eqn:E0.
    + change ("0." ++ Py.zeros (Z.to_nat (- decpt)) ++ ds)%string
        with ("0" ++ ("." ++ (Py.zeros (Z.to_nat (- decpt)) ++ ds)))%string.
      rewrite numeral_int_first; [|reflexivity|discriminate].
      destruct (numeral_e (Py.zeros (Z.to_nat (- decpt)) ++ ds)) as (_ & _ & ->).
      rewrite <- (string_app_empty (Py.zeros (Z.to_nat (- decpt)) ++ ds)).
      rewrite numeral_frac_first; [reflexivity| |].
      * now rewrite all_digits_app, zeros_digits, Hall.
      * destruct (Py.zeros (Z.to_nat (- decpt))); [exact Hne | discriminate].
    + apply Z.leb_gt in E0.
      destruct (Z.of_nat (String.length ds) <=? decpt)%Z eqn:E1.
      * rewrite numeral_int_first; [|exact Hall|exact Hne].
        rewrite numeral_digits_int; [reflexivity | apply zeros_digits].
      * apply Z.leb_gt in E1.
        rewrite numeral_int_first.
        -- destruct (numeral_e (substring (Z.to_nat decpt)
                                  (Z.to_nat (Z.of_nat (String.length ds) - decpt)) ds))
             as (_ & _ & ->).
           rewrite <- (string_app_empty (substring _ _ ds)).
           rewrite numeral_frac_first; [reflexivity| |].
           ++ now apply substring_digits.
           ++ apply substring_nonempty; lia.
        -- now apply substring_digits.
        -- apply substring_nonempty; lia.
Qed.

(** [str] of a float that is a number is a decimal numeral. *)
Lemma str_float_numeral (x : float) :
  is_nan x = false -> is_infinity x = false ->
  decimal_numeral (Py.str_float x) = true.
Proof.
  intros Hnan Hinf. unfold Py.str_float, Prim2SF. rewrite Hnan.
  destruct (PrimFloat.is_zero x); [destruct (get_sign x); reflexivity|].
  rewrite Hinf.
  destruct (Z.frexp x) as [r ex].
  destruct (shr_fexp prec emax _ _ _) as [shr e'].
  destruct (shr_m shr) as [|m|m]; try reflexivity.
  destruct (shortest_digits_digits m e') as [Hall Hne].
  destruct (Py.shortest_digits m e') as [ds decpt]. cbn [fst] in *.
  pose proof (format_digits_numeral ds decpt Hall Hne) as Hnum.
  unfold decimal_numeral.
  destruct (get_sign x).
  - cbn. exact Hnum.
  - cbn [String.append].
    destruct (Py.format_digits ds decpt) as [|c f]; [discriminate Hnum|].
    cbn in Hnum |- *. destruct (Py.is_digit c) eqn:Hc; [|discriminate Hnum].
    destruct (Ascii.eqb c "-") eqn:Hm; [|exact Hnum].
    apply Ascii.eqb_eq in Hm. subst c. discriminate Hc.
Qed.

(** [str] of an int is its decimal numeral: reading the digits gives the
    int back. *)
Lemma str_int_reads_back (z : Z) :
  option_map Z.of_int (NilZero.int_of_string (Py.str_int z)) = Some z.
Proof.
  assert (Hp : forall p, Pos.to_uint p <> Decimal.Nil).
  { intros p H. pose proof (DecimalPos.Unsigned.of_to p) as Hp.
    rewrite H in Hp. discriminate Hp. }
  unfold Py.str_int. rewrite NilZero.isi.
  - cbn. now rewrite DecimalZ.of_to.
  - destruct z as [|p|p]; cbn; intros H; try discriminate H.
    injection H as H. exact (Hp p H).
  - destruct z as [|p|p]; cbn; intros H; try discriminate H.
    injection H as H. exact (Hp p H).
Qed.

Lemma str_int_numeral (z : Z) : decimal_numeral (Py.str_int z) = true.
Proof.
  assert (Hpos : forall c, (0 <= c)%Z -> numeral_from NIntFirst (Py.str_int c) = true).
  { intros c Hc. destruct (str_int_nonneg_digits c Hc) as [Hall Hne].
    rewrite <- (string_app_empty (Py.str_int c)).
    now rewrite numeral_int_first. }
  unfold decimal_numeral. destruct z as [|p|p].
  - reflexivity.
  - specialize (Hpos (Z.pos p) ltac:(lia)).
    destruct (Py.str_int (Z.pos p)) as [|c r]; [discriminate Hpos|].
    cbn in Hpos |- *. destruct (Py.is_digit c) eqn:Hc; [|discriminate Hpos].
    destruct (Ascii.eqb c "-") eqn:Hm; [|exact Hpos].
    apply Ascii.eqb_eq in Hm. subst c. discriminate Hc.
  - change (Py.str_int (Z.neg p)) with (String "-" (Py.str_int (Z.pos p))).
    cbn [numeral_from Ascii.eqb Bool.eqb]. apply (Hpos (Z.pos p)). lia.
Qed.

(** ** The viewer, the flags and the selector's range on the scenarios *)

(** C6 as amended. Given a viewer command, a position (page, x, y) and a
    template that is not empty, [open_pdf] replaces [$page], then [$xloc],
    then [$yloc] in the template by the decimal strings Python's [str]
    gives for page, x and y, splits the result like a shell and starts the
    viewer with the viewer command's words, the file path and the words of
    the split, in this order; with the template
    "--page $page --xloc $xloc --yloc $yloc" and the position
    (3, 10.5, 20.25) the words after the path are --page 3 --xloc 10.5
    --yloc 20.25.  Given a viewer command and the empty template, nothing
    follows the path.  The string put in for the page is its decimal
    numeral, and so is the one for a coordinate that is a number. *)
Theorem open_pdf_substitutes_template
    (spawn : trace -> list string -> option string -> spawn_outcome)
    path cmd w argv :
  Py.shlex_split cmd = Some argv ->
  (forall template page xloc yloc extra,
      template <> EmptyString ->
      Py.shlex_split
        (Py.replace "$yloc" (Py.str_float yloc)
           (Py.replace "$xloc" (Py.str_float xloc)
              (Py.replace "$page" (Py.str_int page) template))) = Some extra ->
      open_pdf spawn Py.str_float path (Some cmd) (Some template)
        (Some (page, xloc, yloc)) w
      = viewer_outcome spawn cmd (argv ++ [path] ++ extra) w) /\
  open_pdf spawn Py.str_float path (Some cmd) (Some sioyek_template)
    (Some (3%Z, 10.5%float, 20.25%float)) w
  = viewer_outcome spawn cmd
      (argv ++ [path] ++ ["--page"; "3"; "--xloc"; "10.5"; "--yloc"; "20.25"]) w /\
  (forall pos,
      open_pdf spawn Py.str_float path (Some cmd) (Some EmptyString) (Some pos) w
      = viewer_outcome spawn cmd (argv ++ [path]) w) /\
  (forall page,
      decimal_numeral (Py.str_int page) = true /\
      option_map Z.of_int (NilZero.int_of_string (Py.str_int page)) = Some page) /\
  (forall x,
      is_nan x = false -> is_infinity x = false ->
      decimal_numeral (Py.str_float x) = true).
Proof.
  intros Hcmd. split; [|split; [|split; [|split]]];
    [| | |intros page; split; [apply str_int_numeral | apply str_int_reads_back]
     |exact str_float_numeral].
  - intros template page xloc yloc extra Hne Hextra.
    apply open_pdf_at; [exact Hcmd|].
    destruct template; [congruence | exact Hextra].
  - apply open_pdf_at; [exact Hcmd|]. vm_compute. reflexivity.
  - intros pos.
    rewrite (open_pdf_at spawn Py.str_float path cmd (Some EmptyString) pos w argv []
               Hcmd eq_refl).
    reflexivity.
Qed.

Lemma open_pdf_substitutes_template_witness :
  Py.shlex_split "sioyek" = Some ["sioyek"] /\
  open_pdf (answering "") Py.str_float "/home/u/a.pdf" (Some "sioyek")
    (Some sioyek_template) (Some (3%Z, 10.5%float, 20.25%float)) []
  = (Ok tt,
     [Spawned ["sioyek"; "/home/u/a.pdf";
               "--page"; "3"; "--xloc"; "10.5"; "--yloc"; "20.25"]
        None (Completed "")]).
Proof.
  split; [reflexivity|].
  exact (proj1 (proj2
    (open_pdf_substitutes_template (answering "") "/home/u/a.pdf" "sioyek" []
       ["sioyek"] eq_refl))).
Defined.

(** C4 fails as it stands: [main] reads the TOC before it looks at the
    no-TOC flag, so with the flag set a file whose TOC cannot be read is not
    opened at all.  On the desk, with a file PyMuPDF cannot open, and with
    the one-page leaflet, the run ends with the exception of [get_toc] and
    no viewer is started. *)
Lemma main_no_toc_flag_reads_toc :
  no_toc no_toc_args = true /\
  main desk unreadable affine short_float_str "/home/u" no_toc_args []
  = (Raised PyMuPDFError,
     [Spawned (fd_argv "/home/u" false) None
        (Completed (unlines ["/home/u/a.pdf"; "/home/u/papers/b.pdf"]));
      Spawned ["fzf"; "--with-nth"; "2.."]
        (Some ("0" ++ String Py.tab "a.pdf" ++ newline
               ++ "1" ++ String Py.tab "b.pdf")%string)
        (Completed ("1" ++ String Py.tab "b.pdf" ++ newline))]) /\
  main leaflet_desk shelf affine short_float_str "/home/u" no_toc_args []
  = (Raised ValueError,
     [Spawned (fd_argv "/home/u" false) None
        (Completed (unlines ["/home/u/leaflet.pdf"]));
      Spawned ["fzf"; "--with-nth"; "2.."]
        (Some ("0" ++ String Py.tab "leaflet.pdf")%string)
        (Completed ("0" ++ String Py.tab "leaflet.pdf" ++ newline))]).
Proof. repeat split; vm_compute; reflexivity. Qed.

Lemma open_pdf_default_viewer_witness :
  main choosing_desk library affine short_float_str "/home/u"
    (with_template sioyek_template) []
  = (Ok tt,
     [Spawned (fd_argv "/home/u" false) None
        (Completed (unlines ["/home/u/a.pdf"; "/home/u/papers/b.pdf"]));
      Spawned ["fzf"; "--with-nth"; "2.."]
        (Some ("0" ++ String Py.tab "a.pdf" ++ newline
               ++ "1" ++ String Py.tab "b.pdf")%string)
        (Completed ("1" ++ String Py.tab "b.pdf" ++ newline));
      Spawned ["fzf"; "--with-nth"; "2.."]
        (Some ("0" ++ String Py.tab "Intro" ++ newline
               ++ "1" ++ String Py.tab "End")%string)
        (Completed ("1" ++ String Py.tab "End" ++ newline));
      Spawned ["zathura"; "/home/u/papers/b.pdf"; "-P"; "3"] None (Completed "")]).
Proof.
  exact (proj1 (proj2 (proj2
    (open_pdf_default_viewer choosing_desk library affine short_float_str "/home/u")))
    plain_args [] _ _ _ _ _ _ _ _ _ _ _ _
    eq_refl
    ltac:(vm_compute; reflexivity) ltac:(vm_compute; reflexivity)
    ltac:(vm_compute; reflexivity) ltac:(vm_compute; reflexivity)
    eq_refl ltac:(vm_compute; reflexivity) ltac:(discriminate)
    ltac:(vm_compute; reflexivity) (Some sioyek_template)).
Defined.

Lemma main_index_out_of_range_witness :
  main desk_answering_seven library affine short_float_str "/home/u" plain_args []
  = (Raised IndexError,
     [Spawned (fd_argv "/home/u" false) None
        (Completed (unlines ["/home/u/a.pdf"; "/home/u/papers/b.pdf"]));
      Spawned ["fzf"; "--with-nth"; "2.."]
        (Some ("0" ++ String Py.tab "a.pdf" ++ newline
               ++ "1" ++ String Py.tab "b.pdf")%string)
        (Completed ("7" ++ newline))]) /\
  main desk_answering_five library affine short_float_str "/home/u" plain_args []
  = (Raised IndexError,
     [Spawned (fd_argv "/home/u" false) None
        (Completed (unlines ["/home/u/a.pdf"; "/home/u/papers/b.pdf"]));
      Spawned ["fzf"; "--with-nth"; "2.."]
        (Some ("0" ++ String Py.tab "a.pdf" ++ newline
               ++ "1" ++ String Py.tab "b.pdf")%string)
        (Completed ("1" ++ String Py.tab "b.pdf" ++ newline));
      Spawned ["fzf"; "--with-nth"; "2.."]
        (Some ("0" ++ String Py.tab "Intro" ++ newline
               ++ "1" ++ String Py.tab "End")%string)
        (Completed ("5" ++ newline))]).
Proof.
  split.
  - refine (proj1
      (main_index_out_of_range desk_answering_seven library affine short_float_str
         "/home/u" plain_args [] _ _ _ _ _
         ltac:(vm_compute; reflexivity) ltac:(vm_compute; reflexivity)) _).
    left. cbn. lia.
  - refine (proj2
      (main_index_out_of_range desk_answering_five library affine short_float_str
         "/home/u" plain_args [] _ _ _ _ _
         ltac:(vm_compute; reflexivity) ltac:(vm_compute; reflexivity))
      _ _ _ _ _ _
      ltac:(vm_compute; reflexivity) ltac:(vm_compute; reflexivity)
      ltac:(discriminate) eq_refl ltac:(vm_compute; reflexivity) _).
    cbn. lia.
Defined.
